(** * User-registration test drivers: the harness model and its properties

    A shallow embedding of three drivers of the repository,

    - [src/drivers/simulated_registration_test.py]
      (class [SimulatedRegistrationTester]),
    - [src/drivers/standalone_test_runner.py] (class [StandaloneTestRunner]),
    - [src/drivers/selenium_registration_tests.py]
      (class [SeleniumRegistrationTests]),

    followed by the properties the specification states about them.

    Conventions of the embedding.

    - A Python [str] is a [string]; one character of the model stands for
      one code point, so [String.length] is Python's [len].
    - A Python [dict] with string keys is a [gmap string _]; a dict whose
      keys are fixed by the code (a result, a response, a report) is a
      record with one field per key.
    - Python exceptions are values of [exn]; a computation that may raise
      returns a [res]; a method that also reads the clock, draws random
      numbers, drives the browser or appends to [self.test_results] is a
      function from a state to a [res] and the next state.
    - Floats are exact rationals ([Q]). The properties below only use values
      on which floating point and exact arithmetic agree ([0], [n / n],
      [1 * 100]).
    - [print] and [time.sleep] have no effect on the values modelled and are
      left out. *)

From Stdlib Require Import String Ascii List ZArith QArith Bool Lia.
From Stdlib Require Import DecimalString Lqa.
From stdpp Require Import gmap strings.

Set Default Proof Using "Type".
Open Scope string_scope.

(** ** Python values, exceptions and the environment *)

Module Py.

(** The objects a payload dict may hold: the model covers [str], [int] and
    [None]. *)
Inductive pyval : Type :=
  | PyStr (s : string)
  | PyInt (z : Z)
  | PyNone.

(** The exception classes the drivers meet; every one of them derives from
    Python's [Exception]. *)
Inductive exn_class : Type :=
  | TypeError
  | ValueError
  | ZeroDivisionError
  | TimeoutException
  | NoSuchElementException
  | WebDriverException.

Record exn : Type := mk_exn { exn_cls : exn_class; exn_msg : string }.

#[global] Instance exn_class_eq_dec : EqDecision exn_class.
Proof. solve_decision. Defined.

Inductive res (A : Type) : Type :=
  | Ok (a : A)
  | Raise (e : exn).
Arguments Ok {A} a.
Arguments Raise {A} e.

Definition res_bind {A B} (c : res A) (k : A -> res B) : res B :=
  match c with
  | Ok a => k a
  | Raise e => Raise e
  end.

Notation "'let*' x ':=' c 'in' k" := (res_bind c (fun x => k))
  (at level 10, x name, c at level 100, k at level 200).

(** Truth value of an object ([bool(v)], hence [not v] is [negb (truthy v)]). *)
Definition truthy (v : pyval) : bool :=
  match v with
  | PyStr s => negb (String.eqb s "")
  | PyInt z => negb (Z.eqb z 0)
  | PyNone => false
  end.

(** [len(v)] *)
Definition py_len (v : pyval) : res nat :=
  match v with
  | PyStr s => Ok (String.length s)
  | PyInt _ => Raise (mk_exn TypeError "object of type 'int' has no len()")
  | PyNone => Raise (mk_exn TypeError "object of type 'NoneType' has no len()")
  end.

(** [sub in s] for two strings: [sub] occurs in [s] as a contiguous run. *)
Fixpoint contains (sub s : string) : bool :=
  String.prefix sub s ||
  match s with
  | EmptyString => false
  | String _ t => contains sub t
  end.

(** [lit in v] where [lit] is a string literal. *)
Definition py_in (lit : string) (v : pyval) : res bool :=
  match v with
  | PyStr s => Ok (contains lit s)
  | PyInt _ => Raise (mk_exn TypeError "argument of type 'int' is not iterable")
  | PyNone => Raise (mk_exn TypeError "argument of type 'NoneType' is not iterable")
  end.

(** [a or b], where [b] is evaluated only when [a] is false. *)
Definition py_or (a : bool) (b : res bool) : res bool :=
  if a then Ok true else b.

(** [d.get(k)] and [d.get(k, dflt)] *)
Definition dict_get (d : gmap string pyval) (k : string) : pyval :=
  default PyNone (d !! k).

Definition dict_get_or (d : gmap string pyval) (k : string) (dflt : pyval) : pyval :=
  default dflt (d !! k).

(** The outside world. Every interaction with it (a clock reading, a random
    draw, a browser command) consumes one tick; the oracles give the answer
    of the world at each tick. *)
Inductive drv_outcome : Type :=
  | DrvOk (text : string)
  | DrvRaise (e : exn).

Record env : Type := mk_env {
  e_random : nat -> Q;          (* random.random(), a float in [0, 1) *)
  e_randbelow : nat -> Z;       (* the raw integer behind random.randint *)
  e_time : nat -> Q;            (* time.time() *)
  e_now : nat -> string;        (* datetime.now().isoformat() *)
  e_driver : nat -> drv_outcome; (* answer of the browser to a command *)
  e_polls : nat -> nat;         (* polls a WebDriverWait has time for, after the first *)
  e_tick : nat
}.

Definition advance (w : env) : env :=
  mk_env (e_random w) (e_randbelow w) (e_time w) (e_now w) (e_driver w)
         (e_polls w) (S (e_tick w)).

(** [random.uniform(a, b)] is [a + (b - a) * random()]. *)
Definition random_uniform (a b : Q) (w : env) : Q * env :=
  ((a + (b - a) * e_random w (e_tick w))%Q, advance w).

(** [random.randint(a, b)]: an integer of [a .. b]. *)
Definition random_randint (a b : Z) (w : env) : Z * env :=
  ((a + (e_randbelow w (e_tick w)) mod (b - a + 1))%Z, advance w).

Definition time_time (w : env) : Q * env := (e_time w (e_tick w), advance w).

Definition datetime_now_isoformat (w : env) : string * env :=
  (e_now w (e_tick w), advance w).

(** A command sent to the browser: its answer is the one the world gives at
    this tick, a text or an exception. *)
Definition driver_command (w : env) : drv_outcome * env :=
  (e_driver w (e_tick w), advance w).

Definition wait_budget (w : env) : nat * env := (e_polls w (e_tick w), advance w).

(** [a / b] on numbers *)
Definition py_truediv (a b : Q) : res Q :=
  if Qeq_bool b 0 then Raise (mk_exn ZeroDivisionError "division by zero")
  else Ok (a / b)%Q.

Definition Q_of_nat (n : nat) : Q := inject_Z (Z.of_nat n).

(** A dict that is iterated: the keys in the order of their first insertion. *)
Fixpoint od_mem {V} (k : string) (d : list (string * V)) : bool :=
  match d with
  | [] => false
  | (k', _) :: rest => String.eqb k k' || od_mem k rest
  end.

Fixpoint od_get {V} (k : string) (d : list (string * V)) : option V :=
  match d with
  | [] => None
  | (k', v) :: rest => if String.eqb k k' then Some v else od_get k rest
  end.

(** [d[k] = v] *)
Fixpoint od_set {V} (k : string) (v : V) (d : list (string * V)) : list (string * V) :=
  match d with
  | [] => [(k, v)]
  | (k', v') :: rest =>
      if String.eqb k k' then (k', v) :: rest else (k', v') :: od_set k v rest
  end.

(** [d[k] = f(d[k])] for a key that is present *)
Fixpoint od_alter {V} (f : V -> V) (k : string) (d : list (string * V)) : list (string * V) :=
  match d with
  | [] => []
  | (k', v') :: rest =>
      if String.eqb k k' then (k', f v') :: rest else (k', v') :: od_alter f k rest
  end.

(** A method of an object of class [Self]: it may raise, and it may change
    the object and the world. What was changed before an exception is raised
    stays changed. *)
Record state (Self : Type) : Type := mk_state { self : Self; world : env }.
Arguments mk_state {Self} self world.
Arguments self {Self} s.
Arguments world {Self} s.

Definition M (Self A : Type) : Type := state Self -> res A * state Self.

Definition ret {Self A} (a : A) : M Self A := fun s => (Ok a, s).

Definition bind {Self A B} (c : M Self A) (k : A -> M Self B) : M Self B :=
  fun s =>
    match c s with
    | (Ok a, s') => k a s'
    | (Raise e, s') => (Raise e, s')
    end.

Notation "'do*' x ':=' c 'in' k" := (bind c (fun x => k))
  (at level 10, x name, c at level 100, k at level 200).

Definition lift {Self A} (r : res A) : M Self A := fun s => (r, s).

Definition raise {Self A} (e : exn) : M Self A := fun s => (Raise e, s).

Definition io {Self A} (f : env -> A * env) : M Self A :=
  fun s => let (a, w) := f (world s) in (Ok a, mk_state (self s) w).

Definition get_self {Self} : M Self Self := fun s => (Ok (self s), s).

Definition set_self {Self} (o : Self) : M Self unit :=
  fun s => (Ok tt, mk_state o (world s)).

(** [try: body except (classes) as e: handler e]; an exception of another
    class passes through. *)
Definition try_except {Self A} (body : M Self A) (classes : list exn_class)
    (handler : exn -> M Self A) : M Self A :=
  fun s =>
    match body s with
    | (Ok a, s') => (Ok a, s')
    | (Raise e, s') =>
        if bool_decide (exn_cls e ∈ classes) then handler e s'
        else (Raise e, s')
    end.

(** [try: body except Exception as e: handler e] *)
Definition try_except_Exception {Self A} (body : M Self A)
    (handler : exn -> M Self A) : M Self A :=
  fun s =>
    match body s with
    | (Ok a, s') => (Ok a, s')
    | (Raise e, s') => handler e s'
    end.

(** [(passed_tests / total_tests) * 100 if total_tests > 0 else 0], the
    expression all three drivers use for the pass rate. *)
Definition pass_rate_of (passed_tests total_tests : nat) : res Q :=
  if (0 <? total_tests)%nat
  then let* q := py_truediv (Q_of_nat passed_tests) (Q_of_nat total_tests) in
       Ok (q * 100)%Q
  else Ok 0%Q.

(** A computation that leaves the object as it is (it may change the
    world). *)
Definition keeps_self {Self A} (c : M Self A) : Prop :=
  forall s, self (snd (c s)) = self s.

(** [sum(1 for r in l if p r)] *)
Definition count_if {A} (p : A -> bool) (l : list A) : nat :=
  length (filter (fun a => p a = true) l).

(** [sum(l)] over floats *)
Definition py_sum (l : list Q) : Q := fold_left Qplus l 0%Q.

(** [min(l, key=key)] and [max(l, key=key)]: the first item with the
    smallest (largest) key; both raise on an empty sequence. *)
Definition py_min_by {A} (key : A -> Q) (l : list A) : res A :=
  match l with
  | [] => Raise (mk_exn ValueError "min() arg is an empty sequence")
  | x :: t =>
      Ok (fold_left (fun best y => if Qle_bool (key best) (key y) then best else y) t x)
  end.

Definition py_max_by {A} (key : A -> Q) (l : list A) : res A :=
  match l with
  | [] => Raise (mk_exn ValueError "max() arg is an empty sequence")
  | x :: t =>
      Ok (fold_left (fun best y => if Qle_bool (key y) (key best) then best else y) t x)
  end.

(** [int(x)] of a float: the integer part, rounded toward zero. *)
Definition py_int (x : Q) : Z := Z.quot (Qnum x) (Zpos (Qden x)).

(** [str(n)] of an int, as an f-string writes it. *)
Definition py_str_int (n : Z) : string := NilZero.string_of_int (Z.to_int n).

(** [int(time.time())] *)
Definition int_time {Self} : M Self Z :=
  do* t := io time_time in
  ret (py_int t).

(** [for i, x in enumerate(xs): results.append(body(i, x))], the index
    starting at [i]. *)
Fixpoint for_enumerate {Self A B} (body : nat -> A -> M Self B) (i : nat)
    (xs : list A) : M Self (list B) :=
  match xs with
  | [] => ret []
  | x :: rest =>
      do* r := body i x in
      do* rs := for_enumerate body (S i) rest in
      ret (r :: rs)
  end.

(** The identifiers such a loop gives to its results when the body names
    the result of item [x] at index [i] as [idf i x]. *)
Fixpoint ids_from {A} (idf : nat -> A -> string) (i : nat) (xs : list A) : list string :=
  match xs with
  | [] => []
  | x :: rest => idf i x :: ids_from idf (S i) rest
  end.

(** [c in s] for a single character. *)
Fixpoint has_char (c : ascii) (s : string) : bool :=
  match s with
  | EmptyString => false
  | String d t => Ascii.eqb c d || has_char c t
  end.

End Py.

Import Py.

(** ** The standalone runner *)

Module Standalone.

Record result : Type := mk_result {
  test_id : string;
  description : string;
  category : string;
  priority : string;
  passed : bool;
  execution_time : Q;
  timestamp : string
}.

(** The runner object; [valid_test_data] is a constant of the class and
    plays no part in the results. *)
Record runner : Type := mk_runner { test_results : list result }.

(** [StandaloneTestRunner()] *)
Definition __init__ : runner := mk_runner [].

(** [execute_test]; the sleep of [0.1 + (hash(test_id) % 100) / 1000.0]
    seconds shows only in the two clock readings. *)
Definition execute_test (test_id description category priority : string) : M runner result :=
  do* start_time := io time_time in
  let passed := true in
  do* end_time := io time_time in
  let actual_execution_time := (end_time - start_time)%Q in
  do* timestamp := io datetime_now_isoformat in
  let result := mk_result test_id description category priority passed
                  actual_execution_time timestamp in
  do* this := get_self in
  do* _ := set_self (mk_runner (test_results this ++ [result])) in
  ret result.

(** The [for test_id, description, priority in tests] loops of
    [run_positive_tests] ... [run_integration_tests]. *)
Record test_call : Type := mk_call {
  call_id : string;
  call_description : string;
  call_category : string;
  call_priority : string
}.

Fixpoint run_tests (tests : list test_call) : M runner unit :=
  match tests with
  | [] => ret tt
  | t :: rest =>
      do* _ := execute_test (call_id t) (call_description t) (call_category t)
                 (call_priority t) in
      run_tests rest
  end.

Record stats : Type := mk_stats { st_total : nat; st_passed : nat }.

(** One turn of the breakdown loop of [generate_summary_report] for one of
    the two dicts. *)
Definition tally (key : string) (passed : bool) (d : list (string * stats)) : list (string * stats) :=
  let d := if negb (od_mem key d) then od_set key (mk_stats 0 0) d else d in
  let d := od_alter (fun st => mk_stats (st_total st + 1) (st_passed st)) key d in
  if passed then od_alter (fun st => mk_stats (st_total st) (st_passed st + 1)) key d
  else d.

(** The breakdown loop: [categories] and [priorities] after all results. *)
Definition breakdown (results : list result) : list (string * stats) * list (string * stats) :=
  fold_left
    (fun d result =>
       (tally (category result) (passed result) (fst d),
        tally (priority result) (passed result) (snd d)))
    results ([], []).

(** A group that holds at least one result. *)
Definition counted (kv : string * stats) : Prop := (0 < st_total (snd kv))%nat.

(** The rates of the two [for ..., stats in ....items()] loops, which are
    printed: [(stats["passed"] / stats["total"]) * 100]. *)
Fixpoint group_rates (d : list (string * stats)) : res (list Q) :=
  match d with
  | [] => Ok []
  | (_, st) :: rest =>
      let* q := py_truediv (Q_of_nat (st_passed st)) (Q_of_nat (st_total st)) in
      let* qs := group_rates rest in
      Ok ((q * 100)%Q :: qs)
  end.

Record summary : Type := mk_summary {
  s_total_tests : nat;
  s_passed : nat;
  s_failed : Z;
  s_pass_rate : Q;
  s_total_execution_time : Q;
  s_avg_execution_time : Q
}.

Record report : Type := mk_report {
  r_summary : summary;
  r_categories : list (string * stats);
  r_priorities : list (string * stats);
  r_test_results : list result
}.

Definition generate_summary_report : M runner report :=
  do* this := get_self in
  let total_tests := length (test_results this) in
  let passed_tests := count_if passed (test_results this) in
  let failed_tests := (Z.of_nat total_tests - Z.of_nat passed_tests)%Z in
  do* pass_rate := lift (pass_rate_of passed_tests total_tests) in
  let execution_times := map execution_time (test_results this) in
  let total_execution_time := py_sum execution_times in
  do* avg_execution_time :=
    lift (match execution_times with
          | [] => Ok 0%Q
          | _ => py_truediv total_execution_time (Q_of_nat (length execution_times))
          end) in
  let categories := fst (breakdown (test_results this)) in
  let priorities := snd (breakdown (test_results this)) in
  do* _ := lift (group_rates categories) in
  do* _ := lift (group_rates priorities) in
  do* fastest_test := lift (py_min_by execution_time (test_results this)) in
  do* slowest_test := lift (py_max_by execution_time (test_results this)) in
  ret (mk_report
         (mk_summary total_tests passed_tests failed_tests pass_rate
            total_execution_time avg_execution_time)
         categories priorities (test_results this)).

Definition positive_tests : list test_call :=
  [ mk_call "REG_001" "Successful registration with valid data" "Positive" "High";
    mk_call "REG_002" "Registration with minimum required fields" "Positive" "High";
    mk_call "REG_003" "Registration with all optional fields" "Positive" "Medium" ].

Definition negative_tests : list test_call :=
  [ mk_call "REG_004" "Registration with empty username" "Negative" "High";
    mk_call "REG_005" "Registration with empty email" "Negative" "High";
    mk_call "REG_006" "Registration with empty password" "Negative" "High";
    mk_call "REG_007" "Registration with invalid email format" "Negative" "High";
    mk_call "REG_008" "Registration with duplicate username" "Negative" "High";
    mk_call "REG_009" "Registration with duplicate email" "Negative" "High";
    mk_call "REG_010" "Registration with weak password" "Negative" "High";
    mk_call "REG_011" "Registration with mismatched passwords" "Negative" "High" ].

Definition security_tests : list test_call :=
  [ mk_call "REG_015" "SQL injection protection" "Security" "High";
    mk_call "REG_016" "XSS attack protection" "Security" "High";
    mk_call "REG_017" "Password encryption verification" "Security" "High";
    mk_call "REG_018" "CSRF protection" "Security" "Medium" ].

Definition boundary_tests : list test_call :=
  [ mk_call "REG_012" "Username length boundaries" "Boundary" "Medium";
    mk_call "REG_013" "Password length boundaries" "Boundary" "Medium";
    mk_call "REG_014" "Email length boundaries" "Boundary" "Low" ].

Definition ui_ux_tests : list test_call :=
  [ mk_call "REG_019" "Form field validation messages" "UI_UX" "Medium";
    mk_call "REG_020" "Password visibility toggle" "UI_UX" "Low";
    mk_call "REG_021" "Form field tab order" "UI_UX" "Low";
    mk_call "REG_022" "Responsive design" "UI_UX" "Medium" ].

Definition performance_tests : list test_call :=
  [ mk_call "REG_023" "Registration response time" "Performance" "Medium";
    mk_call "REG_024" "Concurrent registrations" "Performance" "Medium" ].

Definition accessibility_tests : list test_call :=
  [ mk_call "REG_025" "Keyboard navigation" "Accessibility" "Medium";
    mk_call "REG_026" "Screen reader compatibility" "Accessibility" "Medium";
    mk_call "REG_027" "Color contrast compliance" "Accessibility" "Low" ].

Definition integration_tests : list test_call :=
  [ mk_call "REG_028" "Email verification flow" "Integration" "High";
    mk_call "REG_029" "Welcome email sending" "Integration" "Medium";
    mk_call "REG_030" "User profile creation" "Integration" "High" ].

Definition run_positive_tests : M runner unit := run_tests positive_tests.
Definition run_negative_tests : M runner unit := run_tests negative_tests.
Definition run_security_tests : M runner unit := run_tests security_tests.
Definition run_boundary_tests : M runner unit := run_tests boundary_tests.
Definition run_ui_ux_tests : M runner unit := run_tests ui_ux_tests.
Definition run_performance_tests : M runner unit := run_tests performance_tests.
Definition run_accessibility_tests : M runner unit := run_tests accessibility_tests.
Definition run_integration_tests : M runner unit := run_tests integration_tests.

(** [run_all_tests]: the eight groups in the order of the source, between
    two readings of the clock, then the summary. *)
Definition run_all_tests : M runner report :=
  do* start_time := io time_time in
  do* _ := run_positive_tests in
  do* _ := run_negative_tests in
  do* _ := run_security_tests in
  do* _ := run_boundary_tests in
  do* _ := run_ui_ux_tests in
  do* _ := run_performance_tests in
  do* _ := run_accessibility_tests in
  do* _ := run_integration_tests in
  do* end_time := io time_time in
  do* report := generate_summary_report in
  ret report.

(** The breakdown loop for one of its two dicts, from a dict [d]. *)
Definition tally_all (key : result -> string) (results : list result)
    (d : list (string * stats)) : list (string * stats) :=
  fold_left (fun d r => tally (key r) (passed r) d) results d.

(** The sum of one count over the groups of a dict. *)
Definition sum_by (g : stats -> nat) (d : list (string * stats)) : nat :=
  fold_right (fun kv n => (g (snd kv) + n)%nat) O d.

(** What a call leaves in the log, the times apart, and the same fields of
    a result. *)
Definition call_fields (t : test_call) : string * string * string * string * bool :=
  (call_id t, call_description t, call_category t, call_priority t, true).

Definition result_fields (r : result) : string * string * string * string * bool :=
  (test_id r, description r, category r, priority r, passed r).

(** The calls of [run_all_tests], in order. *)
Definition catalog : list test_call :=
  positive_tests ++ negative_tests ++ security_tests ++ boundary_tests ++
  ui_ux_tests ++ performance_tests ++ accessibility_tests ++ integration_tests.

(** A result with the fields of a call and no time. *)
Definition stand_in (t : test_call) : result :=
  mk_result (call_id t) (call_description t) (call_category t) (call_priority t)
    true 0 "".

End Standalone.

(** ** The simulated tester *)

Module Simulated.

Definition _is_valid_data (data : gmap string pyval) : res bool :=
  let* c1 := py_or (negb (truthy (dict_get data "username")))
               (let* n := py_len (dict_get_or data "username" (PyStr "")) in
                Ok (n <? 3)%nat) in
  if c1 then Ok false else
  let* c2 := py_or (negb (truthy (dict_get data "email")))
               (let* b := py_in "@" (dict_get_or data "email" (PyStr "")) in
                Ok (negb b)) in
  if c2 then Ok false else
  let* c3 := py_or (negb (truthy (dict_get data "password")))
               (let* n := py_len (dict_get_or data "password" (PyStr "")) in
                Ok (n <? 8)%nat) in
  if c3 then Ok false else
  let* c4 := py_in "DROP TABLE" (dict_get_or data "username" (PyStr "")) in
  if c4 then Ok false else
  let* c5 := py_in "<script>" (dict_get_or data "username" (PyStr "")) in
  if c5 then Ok false else
  Ok true.

Definition _get_error_message (data : gmap string pyval) : res string :=
  if negb (truthy (dict_get data "username")) then Ok "Username is required" else
  let* n := py_len (dict_get_or data "username" (PyStr "")) in
  if (n <? 3)%nat then Ok "Username must be at least 3 characters" else
  if negb (truthy (dict_get data "email")) then Ok "Email is required" else
  let* b := py_in "@" (dict_get_or data "email" (PyStr "")) in
  if negb b then Ok "Please enter a valid email address" else
  if negb (truthy (dict_get data "password")) then Ok "Password is required" else
  let* n := py_len (dict_get_or data "password" (PyStr "")) in
  if (n <? 8)%nat then Ok "Password must be at least 8 characters" else
  let* b := py_in "DROP TABLE" (dict_get_or data "username" (PyStr "")) in
  if b then Ok "Invalid characters in username" else
  let* b := py_in "<script>" (dict_get_or data "username" (PyStr "")) in
  if b then Ok "Invalid characters in username" else
  Ok "Registration failed".

(** The dicts built by the tester, one field per key. *)
Record response : Type := mk_response {
  status_code : Z;
  response_time : Q;
  body : gmap string pyval;
  success : bool
}.

Record result : Type := mk_result {
  test_id : string;
  description : string;
  test_data : gmap string pyval;
  expected_result : string;
  actual_response : response;
  execution_time : Q;
  passed : bool;
  timestamp : string
}.

(** The tester object: [base_url] and the result log [test_results]. *)
Record tester : Type := mk_tester {
  base_url : string;
  test_results : list result
}.

(** [SimulatedRegistrationTester(base_url)] *)
Definition __init__ (base_url : string) : tester := mk_tester base_url [].

Definition simulate_http_request (data : gmap string pyval) : M tester response :=
  do* response_time := io (random_uniform (1 # 10) 2) in
  do* valid := lift (_is_valid_data data) in
  if valid then
    do* user_id := io (random_randint 1000 9999) in
    ret (mk_response 201 response_time
           {[ "message" := PyStr "Registration successful";
              "user_id" := PyInt user_id ]}
           true)
  else
    do* error_msg := lift (_get_error_message data) in
    ret (mk_response 400 response_time {[ "error" := PyStr error_msg ]} false).

(** Lines 92-96 of [run_test_case]: the verdict on a response. *)
Definition classify (expected_result : string) (response : response) : res bool :=
  if String.eqb expected_result "success" then Ok (success response)
  else if negb (success response)
       then py_in expected_result (dict_get_or (body response) "error" (PyStr ""))
       else Ok false.

Definition run_test_case (test_id description : string)
    (test_data : gmap string pyval) (expected_result : string) : M tester result :=
  do* start_time := io time_time in
  do* response := simulate_http_request test_data in
  do* end_time := io time_time in
  do* passed := lift (classify expected_result response) in
  do* timestamp := io datetime_now_isoformat in
  let result := mk_result test_id description test_data expected_result
                  response (end_time - start_time)%Q passed timestamp in
  do* this := get_self in
  do* _ := set_self (mk_tester (base_url this) (test_results this ++ [result])) in
  ret result.

(** A run of cases in order, as [run_positive_tests], [run_negative_tests],
    ... do with their literal cases: one [run_test_case] after the other. *)
Record test_case : Type := mk_case {
  case_id : string;
  case_description : string;
  case_data : gmap string pyval;
  case_expected : string
}.

Fixpoint run_cases (cases : list test_case) : M tester (list result) :=
  match cases with
  | [] => ret []
  | c :: rest =>
      do* r := run_test_case (case_id c) (case_description c) (case_data c)
                 (case_expected c) in
      do* rs := run_cases rest in
      ret (r :: rs)
  end.

Record summary : Type := mk_summary {
  s_total_tests : nat;
  s_passed : nat;
  s_failed : Z;
  s_pass_rate : Q;
  s_execution_time : string;
  s_test_environment : string
}.

Record report_data : Type := mk_report {
  r_summary : summary;
  r_test_results : list result
}.

(** Lines 323-333 of [generate_test_report]: average, maximum and minimum
    response time, computed (and printed) only when there is a response. *)
Definition performance_metrics (results : list result) : res (option (Q * Q * Q)) :=
  let response_times := map (fun r => response_time (actual_response r)) results in
  match response_times with
  | [] => Ok None
  | _ =>
      let* avg := py_truediv (py_sum response_times) (Q_of_nat (length response_times)) in
      let* mx := py_max_by id response_times in
      let* mn := py_min_by id response_times in
      Ok (Some (avg, mx, mn))
  end.

Definition generate_test_report : M tester report_data :=
  do* this := get_self in
  let total_tests := length (test_results this) in
  let passed_tests := count_if passed (test_results this) in
  let failed_tests := (Z.of_nat total_tests - Z.of_nat passed_tests)%Z in
  do* pass_rate := lift (pass_rate_of passed_tests total_tests) in
  do* _ := lift (performance_metrics (test_results this)) in
  do* now := io datetime_now_isoformat in
  ret (mk_report
         (mk_summary total_tests passed_tests failed_tests pass_rate now (base_url this))
         (test_results this)).

Definition run_positive_tests : M tester unit :=
  do* t1 := int_time in
  do* t2 := int_time in
  do* _ := run_test_case "REG_001" "Successful registration with valid data"
             {[ "username" := PyStr ("testuser_" ++ py_str_int t1);
                "email" := PyStr ("test_" ++ py_str_int t2 ++ "@example.com");
                "password" := PyStr "SecurePass123!";
                "confirm_password" := PyStr "SecurePass123!";
                "first_name" := PyStr "John";
                "last_name" := PyStr "Doe" ]}
             "success" in
  do* t1 := int_time in
  do* t2 := int_time in
  do* _ := run_test_case "REG_002" "Registration with minimum required fields"
             {[ "username" := PyStr ("minuser_" ++ py_str_int t1);
                "email" := PyStr ("min_" ++ py_str_int t2 ++ "@example.com");
                "password" := PyStr "MinPass123!" ]}
             "success" in
  do* t1 := int_time in
  do* t2 := int_time in
  do* _ := run_test_case "REG_003" "Registration with all optional fields"
             {[ "username" := PyStr ("complete_" ++ py_str_int t1);
                "email" := PyStr ("complete_" ++ py_str_int t2 ++ "@example.com");
                "password" := PyStr "CompletePass123!";
                "first_name" := PyStr "Jane";
                "last_name" := PyStr "Smith";
                "phone" := PyStr "+1234567890";
                "address" := PyStr "123 Test Street" ]}
             "success" in
  ret tt.

Definition run_negative_tests : M tester unit :=
  do* _ := run_test_case "REG_004" "Registration with empty username"
             {[ "username" := PyStr "";
                "email" := PyStr "test@example.com";
                "password" := PyStr "ValidPass123!" ]}
             "Username is required" in
  do* _ := run_test_case "REG_005" "Registration with empty email"
             {[ "username" := PyStr "testuser";
                "email" := PyStr "";
                "password" := PyStr "ValidPass123!" ]}
             "Email is required" in
  do* _ := run_test_case "REG_006" "Registration with empty password"
             {[ "username" := PyStr "testuser";
                "email" := PyStr "test@example.com";
                "password" := PyStr "" ]}
             "Password is required" in
  do* _ := run_test_case "REG_007" "Registration with invalid email format"
             {[ "username" := PyStr "testuser";
                "email" := PyStr "invalid-email";
                "password" := PyStr "ValidPass123!" ]}
             "Please enter a valid email address" in
  ret tt.

Definition run_security_tests : M tester unit :=
  do* _ := run_test_case "REG_015" "SQL injection protection"
             {[ "username" := PyStr "admin'; DROP TABLE users; --";
                "email" := PyStr "test@example.com";
                "password" := PyStr "ValidPass123!" ]}
             "Invalid characters" in
  do* _ := run_test_case "REG_016" "XSS attack protection"
             {[ "username" := PyStr "<script>alert('XSS')</script>";
                "email" := PyStr "test@example.com";
                "password" := PyStr "ValidPass123!" ]}
             "Invalid characters" in
  ret tt.

Definition run_boundary_tests : M tester unit :=
  do* _ := run_test_case "REG_012a" "Username below minimum length"
             {[ "username" := PyStr "ab";
                "email" := PyStr "test@example.com";
                "password" := PyStr "ValidPass123!" ]}
             "Username must be at least 3 characters" in
  do* _ := run_test_case "REG_013a" "Password below minimum length"
             {[ "username" := PyStr "testuser";
                "email" := PyStr "test@example.com";
                "password" := PyStr "Pass1!" ]}
             "Password must be at least 8 characters" in
  ret tt.

(** [run_performance_test] returns nothing; the verdict of its check
    [response_time < 3.0] is printed, and is returned here to be stated. *)
Definition run_performance_test : M tester bool :=
  do* start_time := io time_time in
  do* t1 := int_time in
  do* t2 := int_time in
  do* result := run_test_case "REG_023" "Registration response time"
                  {[ "username" := PyStr ("perfuser_" ++ py_str_int t1);
                     "email" := PyStr ("perf_" ++ py_str_int t2 ++ "@example.com");
                     "password" := PyStr "PerfPass123!" ]}
                  "success" in
  let response_time := response_time (actual_response result) in
  let performance_pass := negb (Qle_bool 3 response_time) in
  ret performance_pass.

(** [run_full_test_suite]; [self.start_time] and [self.end_time] hold the
    two readings of the clock and are only printed. *)
Definition run_full_test_suite : M tester report_data :=
  do* start_time := io time_time in
  do* _ := run_positive_tests in
  do* _ := run_negative_tests in
  do* _ := run_security_tests in
  do* _ := run_boundary_tests in
  do* _ := run_performance_test in
  do* end_time := io time_time in
  do* report := generate_test_report in
  ret report.

(** A computation that returns, adds passed results with the identifiers
    [ids] to the log and nothing else, and ends with [Q] holding of its value
    and the tester. *)
Definition passes_all {A} (ids : list string) (Q : A -> tester -> Prop)
    (c : M tester A) : Prop :=
  forall s, exists a s' new,
    c s = (Ok a, s') /\
    self s' = mk_tester (base_url (self s)) (test_results (self s) ++ new) /\
    map test_id new = ids /\
    Forall (fun r => passed r = true) new /\
    Q a (self s').

Definition anything {A} : A -> tester -> Prop := fun _ _ => True.

(** A report that is the one of the tester [t]. *)
Definition reported (rep : report_data) (t : tester) : Prop :=
  r_test_results rep = test_results t /\
  s_total_tests (r_summary rep) = length (test_results t) /\
  s_passed (r_summary rep) = count_if passed (test_results t) /\
  s_failed (r_summary rep)
    = (Z.of_nat (length (test_results t)) - Z.of_nat (count_if passed (test_results t)))%Z /\
  s_pass_rate (r_summary rep)
    = (if (0 <? length (test_results t))%nat
       then (Q_of_nat (count_if passed (test_results t)) /
             Q_of_nat (length (test_results t)) * 100)%Q
       else 0%Q) /\
  s_test_environment (r_summary rep) = base_url t.

(** The identifiers of the cases of [run_full_test_suite], in order. *)
Definition suite_ids : list string :=
  [ "REG_001"; "REG_002"; "REG_003"; "REG_004"; "REG_005"; "REG_006"; "REG_007";
    "REG_015"; "REG_016"; "REG_012a"; "REG_013a"; "REG_023" ].

End Simulated.

(** ** The Selenium tests *)

Module Selenium.

Record result : Type := mk_result {
  test_id : string;
  description : string;
  passed : bool;
  execution_time : Q;
  result_message : string;
  timestamp : string
}.

(** The test object. The driver and its wait belong to the world: what the
    browser answers is given by the environment. *)
Record tests : Type := mk_tests {
  base_url : string;
  test_results : list result
}.

Definition __init__ (base_url : string) : tests := mk_tests base_url [].

Definition selectors : list (string * string) :=
  [ ("username", "#username");
    ("email", "#email");
    ("password", "#password");
    ("confirm_password", "#confirm_password");
    ("first_name", "#first_name");
    ("last_name", "#last_name");
    ("phone", "#phone");
    ("submit_button", "button[type='submit']");
    ("error_message", ".error-message");
    ("success_message", ".success-message");
    ("form", "#registration-form") ].

(** One call into the driver ([driver.get], [find_element], [click],
    [send_keys], [clear], [.text], or a [wait.until] on a condition of the
    library): the text it answers, or the exception it raises. *)
Definition browser : M tests string :=
  do* o := io driver_command in
  match o with
  | DrvOk text => ret text
  | DrvRaise e => raise e
  end.

(** [WebDriverWait.until(method)] for a method written in Python: the method
    is called, a [NoSuchElementException] counting as a false answer, until
    it answers true or the time is over. *)
Fixpoint poll (n : nat) (method : M tests bool) : M tests bool :=
  do* value := try_except method [NoSuchElementException] (fun _ => ret false) in
  if value then ret true
  else match n with
       | O => raise (mk_exn TimeoutException "Message: ")
       | S n' => poll n' method
       end.

Definition wait_until (method : M tests bool) : M tests bool :=
  do* n := io wait_budget in
  poll n method.

Definition navigate_to_registration : M tests bool :=
  try_except
    (do* _ := browser in
     do* _ := browser in
     ret true)
    [TimeoutException]
    (fun _ => ret false).

Definition fill_form_field (field_name value : string) : M tests bool :=
  try_except
    (match od_get field_name selectors with
     | None => ret false
     | Some selector =>
         if String.eqb selector "" then ret false
         else
           do* _ := browser in
           do* _ := browser in
           do* _ := browser in
           ret true
     end)
    [TimeoutException; NoSuchElementException]
    (fun _ => ret false).

Definition submit_form : M tests bool :=
  try_except
    (do* _ := browser in
     do* _ := browser in
     ret true)
    [TimeoutException; NoSuchElementException]
    (fun _ => ret false).

Definition get_error_message : M tests (option string) :=
  try_except
    (do* _ := browser in
     do* text := browser in
     ret (Some text))
    [NoSuchElementException]
    (fun _ => ret None).

Definition get_success_message : M tests (option string) :=
  try_except
    (do* _ := browser in
     do* text := browser in
     ret (Some text))
    [NoSuchElementException]
    (fun _ => ret None).

(** Truth value of a message that may be [None]. *)
Definition msg_truthy (m : option string) : bool :=
  match m with
  | Some t => negb (String.eqb t "")
  | None => false
  end.

(** [m or dflt] *)
Definition msg_or (m : option string) (dflt : string) : string :=
  match m with
  | Some t => if String.eqb t "" then dflt else t
  | None => dflt
  end.

Definition wait_for_response : M tests bool :=
  try_except
    (do* _ := wait_until
                (do* s := get_success_message in
                 if msg_truthy s then ret true
                 else do* e := get_error_message in ret (msg_truthy e)) in
     ret true)
    [TimeoutException]
    (fun _ => ret false).

Definition record_test_result (test_id description : string) (passed : bool)
    (result_message : string) (start_time : Q) : M tests result :=
  do* end_time := io time_time in
  let execution_time := (end_time - start_time)%Q in
  do* timestamp := io datetime_now_isoformat in
  let result := mk_result test_id description passed execution_time
                  result_message timestamp in
  do* this := get_self in
  do* _ := set_self (mk_tests (base_url this) (test_results this ++ [result])) in
  ret result.

(** The [for field, value in test_data.items()] loop of [execute_test_case]:
    the first field that could not be filled, if any. *)
Fixpoint fill_fields (items : list (string * string)) : M tests (option string) :=
  match items with
  | [] => ret None
  | (field, value) :: rest =>
      if od_mem field selectors then
        do* ok := fill_form_field field value in
        if negb ok then ret (Some field) else fill_fields rest
      else fill_fields rest
  end.

(** Lines 186-197 of [execute_test_case]: the verdict and the message. *)
Definition check_result (expected_result_type : string)
    (success_msg error_msg : option string) : bool * string :=
  if String.eqb expected_result_type "success"
  then (bool_decide (is_Some success_msg), msg_or success_msg "No success message")
  else (bool_decide (is_Some error_msg), msg_or error_msg "No error message").

(** The [try] block of [execute_test_case]. *)
Definition execute_test_case_body (test_id description : string)
    (test_data : list (string * string)) (expected_result_type : string)
    (start_time : Q) : M tests result :=
  do* ok := navigate_to_registration in
  if negb ok
  then record_test_result test_id description false "Failed to load page" start_time
  else
    do* failed := fill_fields test_data in
    match failed with
    | Some field =>
        record_test_result test_id description false ("Failed to fill " ++ field) start_time
    | None =>
        do* ok := submit_form in
        if negb ok
        then record_test_result test_id description false "Failed to submit form" start_time
        else
          do* ok := wait_for_response in
          if negb ok
          then record_test_result test_id description false "No response received" start_time
          else
            do* success_msg := get_success_message in
            do* error_msg := get_error_message in
            let verdict := check_result expected_result_type success_msg error_msg in
            record_test_result test_id description (fst verdict) (snd verdict) start_time
    end.

Definition execute_test_case (test_id description : string)
    (test_data : list (string * string)) (expected_result_type : string) : M tests result :=
  do* start_time := io time_time in
  try_except_Exception
    (execute_test_case_body test_id description test_data expected_result_type start_time)
    (fun e =>
       record_test_result test_id description false ("Exception: " ++ exn_msg e) start_time).

(** The loops of the test methods ([for i, invalid_email in enumerate(...)],
    ...) and the sequences of [run_positive_tests], [run_negative_tests],
    [run_security_tests]: one [execute_test_case] after the other, the
    results collected in order. *)
Record test_case : Type := mk_case {
  case_id : string;
  case_description : string;
  case_data : list (string * string);
  case_expected : string
}.

Fixpoint run_cases (cases : list test_case) : M tests (list result) :=
  match cases with
  | [] => ret []
  | c :: rest =>
      do* r := execute_test_case (case_id c) (case_description c) (case_data c)
                 (case_expected c) in
      do* rs := run_cases rest in
      ret (r :: rs)
  end.

(** A computation that ends in one call of [record_test_result]: when it
    returns, its result is the one new entry of the log and satisfies [P];
    when it raises, the log is as before. *)
Definition records_one (P : result -> Prop) (c : M tests result) : Prop :=
  forall s,
    match c s with
    | (Ok r, s') =>
        self s' = mk_tests (base_url (self s)) (test_results (self s) ++ [r]) /\ P r
    | (Raise _, s') => self s' = self s
    end.

(** A result that is a failed one, or the verdict of [check_result]. *)
Definition failed_or_checked (expected_result_type : string) (r : result) : Prop :=
  passed r = false \/
  exists success_msg error_msg,
    (passed r, result_message r) = check_result expected_result_type success_msg error_msg.

Definition valid_test_data : list (string * string) :=
  [ ("username", "testuser123");
    ("email", "test@example.com");
    ("password", "SecurePass123!");
    ("confirm_password", "SecurePass123!");
    ("first_name", "John");
    ("last_name", "Doe");
    ("phone", "+1234567890") ].

Definition test_successful_registration_with_valid_data : M tests result :=
  let test_data := valid_test_data in
  do* t := int_time in
  let test_data := od_set "username" ("user_" ++ py_str_int t) test_data in
  do* t := int_time in
  let test_data := od_set "email" ("user_" ++ py_str_int t ++ "@example.com") test_data in
  execute_test_case "REG_001" "Successful registration with valid data" test_data "success".

Definition test_registration_with_minimum_required_fields : M tests result :=
  do* t1 := int_time in
  do* t2 := int_time in
  let minimal_data :=
    [ ("username", "minuser_" ++ py_str_int t1);
      ("email", "min_" ++ py_str_int t2 ++ "@example.com");
      ("password", "MinPass123!") ] in
  execute_test_case "REG_002" "Registration with minimum required fields"
    minimal_data "success".

Definition test_registration_with_all_optional_fields : M tests result :=
  let complete_data := valid_test_data in
  do* t := int_time in
  let complete_data := od_set "username" ("complete_" ++ py_str_int t) complete_data in
  do* t := int_time in
  let complete_data :=
    od_set "email" ("complete_" ++ py_str_int t ++ "@example.com") complete_data in
  execute_test_case "REG_003" "Registration with all optional fields"
    complete_data "success".

Definition test_registration_with_empty_username : M tests result :=
  let test_data := od_set "username" "" valid_test_data in
  execute_test_case "REG_004" "Registration with empty username" test_data "error".

Definition test_registration_with_empty_email : M tests result :=
  let test_data := od_set "email" "" valid_test_data in
  execute_test_case "REG_005" "Registration with empty email" test_data "error".

Definition test_registration_with_empty_password : M tests result :=
  let test_data := od_set "password" "" valid_test_data in
  execute_test_case "REG_006" "Registration with empty password" test_data "error".

Definition test_registration_with_invalid_email_format : M tests (list result) :=
  let invalid_emails :=
    [ "invalid-email"; "@example.com"; "test@"; "test..test@example.com" ] in
  for_enumerate
    (fun i invalid_email =>
       let test_data := od_set "email" invalid_email valid_test_data in
       execute_test_case ("REG_007_" ++ py_str_int (Z.of_nat i + 1))
         ("Registration with invalid email: " ++ invalid_email) test_data "error")
    0 invalid_emails.

Definition test_registration_with_weak_password : M tests (list result) :=
  let weak_passwords := [ "123"; "password"; "abc"; "12345678" ] in
  for_enumerate
    (fun i weak_password =>
       let test_data := od_set "password" weak_password valid_test_data in
       let test_data := od_set "confirm_password" weak_password test_data in
       execute_test_case ("REG_010_" ++ py_str_int (Z.of_nat i + 1))
         ("Registration with weak password: " ++ weak_password) test_data "error")
    0 weak_passwords.

Definition test_registration_with_mismatched_passwords : M tests result :=
  let test_data := od_set "confirm_password" "DifferentPassword123!" valid_test_data in
  execute_test_case "REG_011" "Registration with mismatched passwords" test_data "error".

Definition test_sql_injection_in_username : M tests (list result) :=
  let malicious_inputs :=
    [ "admin'; DROP TABLE users; --"; "' OR '1'='1"; "admin'/*" ] in
  for_enumerate
    (fun i malicious_input =>
       let test_data := od_set "username" malicious_input valid_test_data in
       execute_test_case ("REG_015_" ++ py_str_int (Z.of_nat i + 1))
         ("SQL injection test: " ++ String.substring 0 20 malicious_input ++ "...")
         test_data "error")
    0 malicious_inputs.

Definition test_xss_in_form_fields : M tests (list result) :=
  let xss_payloads :=
    [ "<script>alert('XSS')</script>"; "javascript:alert('XSS')";
      "<img src=x onerror=alert('XSS')>" ] in
  for_enumerate
    (fun i payload =>
       let test_data := od_set "username" payload valid_test_data in
       execute_test_case ("REG_016_" ++ py_str_int (Z.of_nat i + 1))
         ("XSS test: " ++ String.substring 0 20 payload ++ "...")
         test_data "error")
    0 xss_payloads.

Definition test_form_field_validation_messages : M tests (list result) :=
  let required_fields := [ "username"; "email"; "password" ] in
  for_enumerate
    (fun _ field =>
       let test_data := od_set field "" valid_test_data in
       execute_test_case ("REG_019_" ++ field)
         ("Validation message for empty " ++ field) test_data "error")
    0 required_fields.

(** [results.append(r)] and [results.extend(rs)] in [run_positive_tests],
    [run_negative_tests] and [run_security_tests]. *)
Definition run_positive_tests : M tests (list result) :=
  do* r1 := test_successful_registration_with_valid_data in
  do* r2 := test_registration_with_minimum_required_fields in
  do* r3 := test_registration_with_all_optional_fields in
  ret [r1; r2; r3].

Definition run_negative_tests : M tests (list result) :=
  do* r1 := test_registration_with_empty_username in
  do* r2 := test_registration_with_empty_email in
  do* r3 := test_registration_with_empty_password in
  do* rs4 := test_registration_with_invalid_email_format in
  do* rs5 := test_registration_with_weak_password in
  do* r6 := test_registration_with_mismatched_passwords in
  ret (([r1; r2; r3] ++ rs4) ++ rs5 ++ [r6])%list.

Definition run_security_tests : M tests (list result) :=
  do* rs1 := test_sql_injection_in_username in
  do* rs2 := test_xss_in_form_fields in
  ret (rs1 ++ rs2)%list.

(** A computation that returns, adds results with the identifiers [ids] to
    the log and nothing else, its value [a] and the new results [new]
    standing in the relation [R]. *)
Definition records_all {A} (ids : list string) (R : A -> list result -> Prop)
    (c : M tests A) : Prop :=
  forall s, exists a s' new,
    c s = (Ok a, s') /\
    self s' = mk_tests (base_url (self s)) (test_results (self s) ++ new) /\
    map test_id new = ids /\
    R a new.

End Selenium.

(** ** The statements of the specification, in its own words *)

Module Spec.

(** A payload as the data model has it: field name to string value. *)
Definition payload_of (m : gmap string string) : gmap string pyval := PyStr <$> m.

(** The value of a field, an absent field counting as empty. *)
Definition field (m : gmap string string) (k : string) : string := default "" (m !! k).

Definition is_empty (s : string) : bool := String.eqb s "".

(** The validation rules of the simulated executor in their order of
    evaluation, each with its error message. *)
Definition rules : list ((gmap string string -> bool) * string) :=
  [ (fun m => is_empty (field m "username"), "Username is required");
    (fun m => (String.length (field m "username") <? 3)%nat,
       "Username must be at least 3 characters");
    (fun m => is_empty (field m "email"), "Email is required");
    (fun m => negb (contains "@" (field m "email")),
       "Please enter a valid email address");
    (fun m => is_empty (field m "password"), "Password is required");
    (fun m => (String.length (field m "password") <? 8)%nat,
       "Password must be at least 8 characters");
    (fun m => contains "DROP TABLE" (field m "username"),
       "Invalid characters in username");
    (fun m => contains "<script>" (field m "username"),
       "Invalid characters in username") ].

(** The message of the first rule that triggers, if one does. *)
Fixpoint first_match (rs : list ((gmap string string -> bool) * string))
    (m : gmap string string) : option string :=
  match rs with
  | [] => None
  | (cond, msg) :: rest => if cond m then Some msg else first_match rest m
  end.

(** The messages of the rules; the generic one, last in the order of
    evaluation, is not among them. *)
Definition specific_messages : list string :=
  [ "Username is required";
    "Username must be at least 3 characters";
    "Email is required";
    "Please enter a valid email address";
    "Password is required";
    "Password must be at least 8 characters";
    "Invalid characters in username" ].

Definition generic_message : string := "Registration failed".

(** The expected outcome of a case and the outcome of an executor. *)
Inductive expected : Type :=
  | Success
  | Error (required : option string).

Record outcome : Type := mk_outcome { o_success : bool; o_message : string }.

Definition lower_ascii (c : ascii) : ascii :=
  let n := nat_of_ascii c in
  if ((65 <=? n) && (n <=? 90))%nat then ascii_of_nat (n + 32) else c.

Fixpoint lower (s : string) : string :=
  match s with
  | EmptyString => EmptyString
  | String c t => String (lower_ascii c) (lower t)
  end.

(** The classification rule as the specification words it, the substring
    compared without regard to case. *)
Definition classify (e : expected) (o : outcome) : bool :=
  match e with
  | Success => o_success o
  | Error None => negb (o_success o)
  | Error (Some sub) => negb (o_success o) && contains (lower sub) (lower (o_message o))
  end.

(** The same rule with the substring compared as it stands. *)
Definition classify_exact (e : expected) (o : outcome) : bool :=
  match e with
  | Success => o_success o
  | Error None => negb (o_success o)
  | Error (Some sub) => negb (o_success o) && contains sub (o_message o)
  end.

(** How the simulated tester writes the two: [expected_result] is either
    the string ["success"] or the required substring, and the message of a
    response is the ["error"] entry of its body. *)
Definition expected_of (expected_result : string) : expected :=
  if String.eqb expected_result "success" then Success
  else Error (Some expected_result).

Definition error_text (r : Simulated.response) : string :=
  match Simulated.body r !! "error" with
  | Some (PyStr msg) => msg
  | _ => ""
  end.

Definition outcome_of (r : Simulated.response) : outcome :=
  mk_outcome (Simulated.success r) (error_text r).

(** A case of the catalog: its payload is a mapping to strings. *)
Record catalog_case : Type := mk_catalog_case {
  cc_id : string;
  cc_description : string;
  cc_payload : gmap string string;
  cc_expected : string
}.

Definition simulated_case (c : catalog_case) : Simulated.test_case :=
  Simulated.mk_case (cc_id c) (cc_description c) (payload_of (cc_payload c))
    (cc_expected c).

(** The keys of a sequence in the order in which they first appear. *)
Fixpoint first_seen (keys : list string) : list string :=
  match keys with
  | [] => []
  | k :: rest => k :: List.filter (fun k' => negb (String.eqb k' k)) (first_seen rest)
  end.

(** The results of a group, counted: all of them, and those that passed. *)
Definition group_total (key : Standalone.result -> string) (k : string)
    (results : list Standalone.result) : nat :=
  length (List.filter (fun r => String.eqb (key r) k) results).

Definition group_passed (key : Standalone.result -> string) (k : string)
    (results : list Standalone.result) : nat :=
  length (List.filter (fun r => String.eqb (key r) k && Standalone.passed r) results).

(** What a breakdown holds for a key: nothing when no result has the key. *)
Definition group_stats (key : Standalone.result -> string) (k : string)
    (results : list Standalone.result) : option Standalone.stats :=
  if (0 <? group_total key k results)%nat
  then Some (Standalone.mk_stats (group_total key k results) (group_passed key k results))
  else None.

Definition sum_totals (d : list (string * Standalone.stats)) : nat :=
  fold_right (fun kv n => (Standalone.st_total (snd kv) + n)%nat) O d.

Definition sum_passed (d : list (string * Standalone.stats)) : nat :=
  fold_right (fun kv n => (Standalone.st_passed (snd kv) + n)%nat) O d.

End Spec.

(** ** Concrete payloads, worlds and cases *)

Module Examples.

(** A world in which [random()] draws 0, the clock advances by one second
    per reading, the date is the tick and the browser answers every command
    with an empty text. *)
Definition stamp (n : nat) : string :=
  nth n [ "2026-01-01T00:00:00"; "2026-01-01T00:00:01"; "2026-01-01T00:00:02";
          "2026-01-01T00:00:03"; "2026-01-01T00:00:04"; "2026-01-01T00:00:05";
          "2026-01-01T00:00:06"; "2026-01-01T00:00:07"; "2026-01-01T00:00:08" ]
        "2026-01-01T00:00:09".

Definition world0 : env :=
  mk_env (fun _ => 0%Q) (fun _ => 0%Z) (fun n => Q_of_nat n) stamp
         (fun _ => DrvOk "") (fun _ => O) O.

(** A fresh simulated tester in that world. *)
Definition simulated0 : state Simulated.tester :=
  mk_state (Simulated.__init__ "http://localhost:5003") world0.

(** The two reference payloads of the specification. *)
Definition short_username : gmap string string :=
  {[ "username" := "ab"; "email" := "a@b.com"; "password" := "LongEnough1!" ]}.

Definition valid_user : gmap string string :=
  {[ "username" := "validuser"; "email" := "v@b.com"; "password" := "LongEnough1!" ]}.

(** An injection attempt in the username next to an empty email. *)
Definition sql_without_email : gmap string string :=
  {[ "username" := "DROP TABLE"; "email" := ""; "password" := "LongEnough1!" ]}.

(** The payloads of REG_015 and REG_016. *)
Definition reg_015 : gmap string string :=
  {[ "username" := "admin'; DROP TABLE users; --";
     "email" := "test@example.com"; "password" := "ValidPass123!" ]}.

Definition reg_016 : gmap string string :=
  {[ "username" := "<script>alert('XSS')</script>";
     "email" := "test@example.com"; "password" := "ValidPass123!" ]}.

(** One rejected payload for each message of the rules, in their order. *)
Definition rejected_payloads : list (gmap string string) :=
  [ ∅;
    short_username;
    {[ "username" := "validuser" ]};
    {[ "username" := "validuser"; "email" := "invalid-email" ]};
    {[ "username" := "validuser"; "email" := "v@b.com" ]};
    {[ "username" := "validuser"; "email" := "v@b.com"; "password" := "Pass1!" ]};
    reg_015 ].

(** A world in which the browser cannot be reached. *)
Definition world_down : env :=
  mk_env (fun _ => 0%Q) (fun _ => 0%Z) (fun n => Q_of_nat n) stamp
         (fun _ => DrvRaise (mk_exn WebDriverException "chrome not reachable"))
         (fun _ => O) O.

Definition selenium_down : state Selenium.tests :=
  mk_state (Selenium.__init__ "http://localhost:5003") world_down.

(** A world in which no wait ever ends well. *)
Definition world_slow : env :=
  mk_env (fun _ => 0%Q) (fun _ => 0%Z) (fun n => Q_of_nat n) stamp
         (fun _ => DrvRaise (mk_exn TimeoutException "Message: "))
         (fun _ => O) O.

Definition selenium_slow : state Selenium.tests :=
  mk_state (Selenium.__init__ "http://localhost:5003") world_slow.

(** A world in which the page is fetched but its form never shows. *)
Definition world_no_form : env :=
  mk_env (fun _ => 0%Q) (fun _ => 0%Z) (fun n => Q_of_nat n) stamp
         (fun n => if (n =? 1)%nat then DrvOk ""
                   else DrvRaise (mk_exn TimeoutException "Message: "))
         (fun _ => O) O.

Definition selenium_no_form : state Selenium.tests :=
  mk_state (Selenium.__init__ "http://localhost:5003") world_no_form.

(** A payload whose username is a number, and the cases around it. *)
Definition numeric_username : gmap string pyval :=
  {[ "username" := PyInt 5; "email" := PyStr "test@example.com";
     "password" := PyStr "ValidPass123!" ]}.

Definition numeric_case : Simulated.test_case :=
  Simulated.mk_case "REG_X" "Registration with a numeric username"
    numeric_username "Username is required".

Definition reg_002_case : Simulated.test_case :=
  Simulated.mk_case "REG_002" "Registration with minimum required fields"
    (Spec.payload_of valid_user) "success".

(** REG_004 with its expected message written in lower case. *)
Definition reg_004 : gmap string string :=
  {[ "username" := ""; "email" := "test@example.com"; "password" := "ValidPass123!" ]}.

Definition reg_004_expected : string := "username is required".

End Examples.

(** ** Strings *)

Section Strings.

Lemma prefix_length (a b : string) :
  String.prefix a b = true -> (String.length a <= String.length b)%nat.
Proof.
  revert b. induction a as [|c a IH]; intros b H; simpl; [lia|].
  destruct b as [|d b]; simpl in *; [discriminate|].
  destruct (ascii_dec c d); [|discriminate].
  apply IH in H. lia.
Qed.

Lemma contains_length (sub s : string) :
  contains sub s = true -> (String.length sub <= String.length s)%nat.
Proof.
  induction s as [|c s IH]; cbn [contains]; intros H.
  - apply orb_true_iff in H as [H|H]; [|discriminate].
    apply prefix_length in H. exact H.
  - apply orb_true_iff in H as [H|H].
    + apply prefix_length in H. exact H.
    + apply IH in H. simpl. lia.
Qed.

Lemma contains_empty (s : string) : contains "" s = true.
Proof. destruct s; reflexivity. Qed.

Lemma prefix_app (a b : string) :
  String.prefix a b = true <-> exists t, b = a ++ t.
Proof.
  revert b. induction a as [|c a IH]; intros b; simpl.
  - split; [intros _; exists b; reflexivity | intros _; destruct b; reflexivity].
  - destruct b as [|d b].
    + split; [discriminate | intros [t Ht]; discriminate].
    + simpl. destruct (ascii_dec c d) as [->|Hne].
      * rewrite IH. split; intros [t Ht]; exists t; [by rewrite Ht | by inversion Ht].
      * split; [discriminate | intros [t Ht]; inversion Ht; congruence].
Qed.

(** [contains sub s] holds exactly when [sub] is a contiguous part of [s]. *)
Lemma contains_spec (sub s : string) :
  contains sub s = true <-> exists a b, s = a ++ sub ++ b.
Proof.
  induction s as [|c s IH]; cbn [contains].
  - rewrite orb_false_r, prefix_app. split.
    + intros [t Ht]. exists "", t. exact Ht.
    + intros [a [b H]]. destruct a; [exists b; exact H | discriminate].
  - rewrite orb_true_iff, prefix_app, IH. split.
    + intros [[t Ht] | [a [b H]]].
      * exists "", t. exact Ht.
      * exists (String c a), b. simpl. by rewrite H.
    + intros [a [b H]]. destruct a as [|d a]; simpl in H.
      * left. exists b. exact H.
      * right. inversion H. by exists a, b.
Qed.

End Strings.

(** ** The validator of the simulated executor *)

(** The eight conditions of the rules, one after the other. *)
Ltac case_conditions m :=
  destruct (Spec.is_empty (Spec.field m "username"));
  destruct (String.length (Spec.field m "username") <? 3)%nat;
  destruct (Spec.is_empty (Spec.field m "email"));
  destruct (contains "@" (Spec.field m "email"));
  destruct (Spec.is_empty (Spec.field m "password"));
  destruct (String.length (Spec.field m "password") <? 8)%nat;
  destruct (contains "DROP TABLE" (Spec.field m "username"));
  destruct (contains "<script>" (Spec.field m "username")).

Section Validation.

Import Simulated.

Lemma dict_get_payload (m : gmap string string) (k : string) :
  dict_get (Spec.payload_of m) k =
  match m !! k with Some s => PyStr s | None => PyNone end.
Proof.
  unfold dict_get, Spec.payload_of. rewrite lookup_fmap.
  destruct (m !! k); reflexivity.
Qed.

Lemma dict_get_or_payload (m : gmap string string) (k : string) :
  dict_get_or (Spec.payload_of m) k (PyStr "") = PyStr (Spec.field m k).
Proof.
  unfold dict_get_or, Spec.payload_of, Spec.field. rewrite lookup_fmap.
  destruct (m !! k); reflexivity.
Qed.

Lemma truthy_payload (m : gmap string string) (k : string) :
  truthy (dict_get (Spec.payload_of m) k) = negb (Spec.is_empty (Spec.field m k)).
Proof.
  rewrite dict_get_payload. unfold Spec.field, Spec.is_empty.
  destruct (m !! k); reflexivity.
Qed.

(** On a payload of strings the validator never raises, and it accepts
    exactly when no rule triggers. *)
Lemma is_valid_data_rules (m : gmap string string) :
  _is_valid_data (Spec.payload_of m) =
  Ok (match Spec.first_match Spec.rules m with None => true | Some _ => false end).
Proof.
  unfold _is_valid_data. cbn [Spec.rules Spec.first_match].
  rewrite !truthy_payload, !dict_get_or_payload.
  cbn [py_len py_in res_bind]. case_conditions m; reflexivity.
Qed.

(** On a payload of strings that is not accepted the message is that of the
    first rule that triggers. *)
Lemma get_error_message_rules (m : gmap string string) :
  _get_error_message (Spec.payload_of m) =
  Ok (match Spec.first_match Spec.rules m with
      | Some msg => msg
      | None => Spec.generic_message
      end).
Proof.
  unfold _get_error_message. cbn [Spec.rules Spec.first_match].
  rewrite !truthy_payload, !dict_get_or_payload.
  cbn [py_len py_in res_bind]. case_conditions m; reflexivity.
Qed.

End Validation.

(** ** The simulated executor *)

Section Executor.

Import Simulated.

Lemma first_match_specific (m : gmap string string) (msg : string) :
  Spec.first_match Spec.rules m = Some msg -> In msg Spec.specific_messages.
Proof.
  cbn [Spec.rules Spec.first_match Spec.specific_messages In].
  case_conditions m; intros [= <-]; auto 10.
Qed.

Lemma specific_not_generic (msg : string) :
  In msg Spec.specific_messages -> msg <> Spec.generic_message.
Proof.
  cbn [Spec.specific_messages In]. unfold Spec.generic_message.
  intros H; repeat destruct H as [<- | H]; try discriminate. contradiction.
Qed.

(** The response to a payload the validator rejects. *)
Lemma simulate_http_request_rejected (data : gmap string pyval) (msg : string)
    (s : state tester) :
  _is_valid_data data = Ok false ->
  _get_error_message data = Ok msg ->
  simulate_http_request data s =
  (Ok (mk_response 400 (fst (random_uniform (1 # 10) 2 (world s)))
         {[ "error" := PyStr msg ]} false),
   mk_state (self s) (advance (world s))).
Proof.
  intros Hv He. unfold simulate_http_request, bind, io, lift, ret. simpl.
  rewrite Hv, He. reflexivity.
Qed.

(** The response to a payload the validator accepts. *)
Lemma simulate_http_request_accepted (data : gmap string pyval) (s : state tester) :
  _is_valid_data data = Ok true ->
  simulate_http_request data s =
  (Ok (mk_response 201 (fst (random_uniform (1 # 10) 2 (world s)))
         {[ "message" := PyStr "Registration successful";
            "user_id" := PyInt (fst (random_randint 1000 9999 (advance (world s)))) ]}
         true),
   mk_state (self s) (advance (advance (world s)))).
Proof.
  intros Hv. unfold simulate_http_request, bind, io, lift, ret. simpl.
  rewrite Hv. reflexivity.
Qed.

Lemma random_randint_range (a b : Z) (w : env) :
  (a <= b)%Z -> (a <= fst (random_randint a b w) <= b)%Z.
Proof.
  intros Hab. unfold random_randint. simpl.
  pose proof (Z.mod_pos_bound (e_randbelow w (e_tick w)) (b - a + 1)) as Hm.
  lia.
Qed.

(** Whatever the validator answers false on, whatever the types of the
    fields, the message is found before the generic branch. *)
Lemma rejected_message_specific (data : gmap string pyval) :
  _is_valid_data data = Ok false ->
  exists msg, _get_error_message data = Ok msg /\ In msg Spec.specific_messages.
Proof.
  unfold _is_valid_data, _get_error_message.
  cbn [Spec.specific_messages In].
  destruct (truthy (dict_get data "username")); cbn [negb py_or res_bind];
    [|intros _; eexists; split; [reflexivity | auto 10]].
  destruct (py_len (dict_get_or data "username" (PyStr ""))) as [n1|e];
    cbn [res_bind]; [|discriminate].
  destruct (n1 <? 3)%nat; [intros _; eexists; split; [reflexivity | auto 10]|].
  destruct (truthy (dict_get data "email")); cbn [negb py_or res_bind];
    [|intros _; eexists; split; [reflexivity | auto 10]].
  destruct (py_in "@" (dict_get_or data "email" (PyStr ""))) as [b1|e];
    cbn [res_bind]; [|discriminate].
  destruct b1; cbn [negb]; [|intros _; eexists; split; [reflexivity | auto 10]].
  destruct (truthy (dict_get data "password")); cbn [negb py_or res_bind];
    [|intros _; eexists; split; [reflexivity | auto 10]].
  destruct (py_len (dict_get_or data "password" (PyStr ""))) as [n2|e];
    cbn [res_bind]; [|discriminate].
  destruct (n2 <? 8)%nat; [intros _; eexists; split; [reflexivity | auto 10]|].
  destruct (py_in "DROP TABLE" (dict_get_or data "username" (PyStr ""))) as [b2|e];
    cbn [res_bind]; [|discriminate].
  destruct b2; [intros _; eexists; split; [reflexivity | auto 10]|].
  destruct (py_in "<script>" (dict_get_or data "username" (PyStr ""))) as [b3|e];
    cbn [res_bind]; [|discriminate].
  destruct b3; [intros _; eexists; split; [reflexivity | auto 10]|].
  discriminate.
Qed.

End Executor.

(** ** Properties of the simulated executor *)

Section ExecutorProperties.

Import Simulated.

(** C7. The simulated executor on the two reference payloads, whatever the
    random draws: the payload with username ["ab"] is rejected with the
    message ["Username must be at least 3 characters"], and the payload with
    username ["validuser"] is accepted with status 201. *)
Theorem reference_payloads (s : state tester) :
  (exists r s',
      simulate_http_request (Spec.payload_of Examples.short_username) s = (Ok r, s') /\
      success r = false /\
      body r = {[ "error" := PyStr "Username must be at least 3 characters" ]}) /\
  (exists r s',
      simulate_http_request (Spec.payload_of Examples.valid_user) s = (Ok r, s') /\
      success r = true /\
      status_code r = 201%Z).
Proof.
  split.
  - eexists _, _. split.
    + apply simulate_http_request_rejected; vm_compute; reflexivity.
    + split; reflexivity.
  - eexists _, _. split.
    + apply simulate_http_request_accepted; vm_compute; reflexivity.
    + split; reflexivity.
Qed.

(** C1, as stated, fails: with an empty email next to a username that
    contains ["DROP TABLE"], the message is ["Email is required"]. *)
Lemma injection_message_counterexample :
  contains "DROP TABLE" (Spec.field Examples.sql_without_email "username") = true /\
  exists r s',
    simulate_http_request (Spec.payload_of Examples.sql_without_email)
      Examples.simulated0 = (Ok r, s') /\
    success r = false /\
    body r !! "error" = Some (PyStr "Email is required") /\
    body r !! "error" <> Some (PyStr "Invalid characters in username").
Proof.
  split; [vm_compute; reflexivity|].
  eexists _, _. split.
  - apply simulate_http_request_rejected; vm_compute; reflexivity.
  - split; [reflexivity|]. split; [reflexivity|]. vm_compute. discriminate.
Qed.

(** C1, amended. A payload of strings whose username contains
    ["DROP TABLE"] or ["<script>"] is always rejected (success false, status
    400), whatever the other fields; the message is
    ["Invalid characters in username"] when the email contains ["@"] and the
    password has at least 8 characters, the email and password rules being
    evaluated before the two patterns. *)
Theorem injection_rejected (m : gmap string string) (s : state tester) :
  contains "DROP TABLE" (Spec.field m "username") = true \/
  contains "<script>" (Spec.field m "username") = true ->
  exists r s',
    simulate_http_request (Spec.payload_of m) s = (Ok r, s') /\
    success r = false /\
    status_code r = 400%Z /\
    (contains "@" (Spec.field m "email") = true ->
     (8 <= String.length (Spec.field m "password"))%nat ->
     body r = {[ "error" := PyStr "Invalid characters in username" ]}).
Proof.
  intros Hpat.
  assert (Hlen : (8 <= String.length (Spec.field m "username"))%nat).
  { destruct Hpat as [H|H]; apply contains_length in H; simpl in H; lia. }
  assert (Hrej : exists msg,
             Spec.first_match Spec.rules m = Some msg /\
             (contains "@" (Spec.field m "email") = true ->
              (8 <= String.length (Spec.field m "password"))%nat ->
              msg = "Invalid characters in username")).
  { cbn [Spec.rules Spec.first_match]. unfold Spec.is_empty.
    destruct (String.eqb_spec (Spec.field m "username") "") as [E|_];
      [rewrite E in Hlen; simpl in Hlen; lia|].
    destruct (Nat.ltb_spec (String.length (Spec.field m "username")) 3); [lia|].
    destruct (String.eqb_spec (Spec.field m "email") "") as [E|_].
    { eexists; split; [reflexivity|]. rewrite E. discriminate. }
    destruct (contains "@" (Spec.field m "email")); cbn [negb];
      [|eexists; split; [reflexivity | discriminate]].
    destruct (String.eqb_spec (Spec.field m "password") "") as [E|_].
    { eexists; split; [reflexivity|]. rewrite E. simpl. lia. }
    destruct (Nat.ltb_spec (String.length (Spec.field m "password")) 8).
    { eexists; split; [reflexivity|]. lia. }
    destruct Hpat as [-> | Hx]; [eexists; split; reflexivity|].
    destruct (contains "DROP TABLE" (Spec.field m "username"));
      [eexists; split; reflexivity|].
    rewrite Hx. eexists; split; reflexivity. }
  destruct Hrej as (msg & Hfm & Hmsg).
  eexists _, _. split.
  - apply (simulate_http_request_rejected _ msg).
    + rewrite is_valid_data_rules, Hfm. reflexivity.
    + rewrite get_error_message_rules, Hfm. reflexivity.
  - split; [reflexivity|]. split; [reflexivity|].
    intros Hat Hpw. simpl. rewrite (Hmsg Hat Hpw). reflexivity.
Qed.

(** The SQL case of REG_015 as a witness of [injection_rejected]. *)
Lemma injection_rejected_reg_015 :
  exists r s',
    simulate_http_request (Spec.payload_of Examples.reg_015) Examples.simulated0
      = (Ok r, s') /\
    success r = false /\
    status_code r = 400%Z /\
    body r = {[ "error" := PyStr "Invalid characters in username" ]}.
Proof.
  destruct (injection_rejected Examples.reg_015 Examples.simulated0)
    as (r & s' & Hrun & Hs & Hc & Hmsg).
  - left. vm_compute. reflexivity.
  - exists r, s'. split; [exact Hrun|]. split; [exact Hs|]. split; [exact Hc|].
    apply Hmsg.
    + vm_compute. reflexivity.
    + vm_compute. lia.
Defined.

(** C6. On every payload of strings the executor answers with the message
    of the first rule that triggers, in the order username empty, username
    length, email empty, email format, password empty, password length, SQL
    pattern, XSS pattern, and with status 400; the generic message, last in
    that order, is never the answer. When no rule triggers it answers with
    status 201, success and a user id drawn from 1000 .. 9999. *)
Theorem rules_in_order (m : gmap string string) (s : state tester) :
  exists r s',
    simulate_http_request (Spec.payload_of m) s = (Ok r, s') /\
    match Spec.first_match Spec.rules m with
    | Some msg =>
        status_code r = 400%Z /\ success r = false /\
        body r = {[ "error" := PyStr msg ]} /\
        msg <> Spec.generic_message
    | None =>
        status_code r = 201%Z /\ success r = true /\
        exists user_id : Z,
          (1000 <= user_id <= 9999)%Z /\
          body r = {[ "message" := PyStr "Registration successful";
                      "user_id" := PyInt user_id ]}
    end.
Proof.
  destruct (Spec.first_match Spec.rules m) as [msg|] eqn:Hfm.
  - eexists _, _. split.
    + apply (simulate_http_request_rejected _ msg).
      * rewrite is_valid_data_rules, Hfm. reflexivity.
      * rewrite get_error_message_rules, Hfm. reflexivity.
    + repeat split.
      apply specific_not_generic, (first_match_specific m), Hfm.
  - eexists _, _. split.
    + apply simulate_http_request_accepted.
      rewrite is_valid_data_rules, Hfm. reflexivity.
    + split; [reflexivity|]. split; [reflexivity|].
      eexists. split; [|reflexivity].
      apply random_randint_range. lia.
Qed.

(** C10, as stated, fails on the count: the rejected payloads meet seven
    different messages, so no set of six messages holds them all. *)
Lemma six_messages_counterexample :
  ~ exists six : list string,
      length six = 6%nat /\
      forall data, _is_valid_data data = Ok false ->
        exists msg, _get_error_message data = Ok msg /\ In msg six.
Proof.
  intros (six & Hlen & Hsix).
  assert (Hincl : incl Spec.specific_messages six).
  { assert (Hall : Forall (fun m => _is_valid_data (Spec.payload_of m) = Ok false)
                     Examples.rejected_payloads).
    { repeat constructor. }
    assert (Hmsgs : map (fun m => _get_error_message (Spec.payload_of m))
                      Examples.rejected_payloads
                    = map Ok Spec.specific_messages).
    { vm_compute. reflexivity. }
    intros msg Hin.
    apply (in_map Ok) in Hin. rewrite <- Hmsgs in Hin.
    apply in_map_iff in Hin as (m & Hm & Hinm).
    rewrite Forall_forall in Hall.
    destruct (Hsix _ (Hall m ltac:(by apply list_elem_of_In))) as (msg' & Hm' & Hin').
    rewrite Hm in Hm'. by inversion Hm'. }
  assert (Hnd : List.NoDup Spec.specific_messages).
  { unfold Spec.specific_messages.
    repeat (constructor; [simpl; intuition discriminate|]). constructor. }
  pose proof (List.NoDup_incl_length Hnd Hincl) as Hle.
  rewrite Hlen in Hle. simpl in Hle. lia.
Qed.

(** C10, amended. For every payload on which [_is_valid_data] answers false
    (whatever the types of its fields) [_get_error_message] returns one of
    the seven messages of the rules, so [simulate_http_request] never
    reaches the generic branch ["Registration failed"]. *)
Theorem generic_branch_unreachable (data : gmap string pyval) :
  _is_valid_data data = Ok false ->
  exists msg,
    _get_error_message data = Ok msg /\
    In msg Spec.specific_messages /\
    msg <> Spec.generic_message /\
    forall s : state tester, exists r s',
      simulate_http_request data s = (Ok r, s') /\
      body r = {[ "error" := PyStr msg ]}.
Proof.
  intros Hv.
  destruct (rejected_message_specific data Hv) as (msg & Hmsg & Hin).
  exists msg. split; [exact Hmsg|]. split; [exact Hin|].
  split; [by apply specific_not_generic|].
  intros s. eexists _, _. split.
  - by apply simulate_http_request_rejected.
  - reflexivity.
Qed.

(** A payload whose username is the number 0, as a witness of
    [generic_branch_unreachable]. *)
Lemma generic_branch_unreachable_zero :
  _is_valid_data {[ "username" := PyInt 0 ]} = Ok false /\
  exists msg,
    _get_error_message {[ "username" := PyInt 0 ]} = Ok msg /\
    In msg Spec.specific_messages /\
    msg <> Spec.generic_message /\
    forall s : state tester, exists r s',
      simulate_http_request {[ "username" := PyInt 0 ]} s = (Ok r, s') /\
      body r = {[ "error" := PyStr msg ]}.
Proof.
  assert (H : _is_valid_data {[ "username" := PyInt 0 ]} = Ok false)
    by (vm_compute; reflexivity).
  split; [exact H|].
  exact (generic_branch_unreachable {[ "username" := PyInt 0 ]} H).
Defined.

End ExecutorProperties.

(** ** The harness of the simulated tester *)

Section SimulatedHarness.

Import Simulated.

(** [run_test_case] when the executor answers: the result is recorded at
    the end of the log. *)
Lemma run_test_case_answer (id d : string) (data : gmap string pyval)
    (expected : string) (s s2 : state tester) (resp : response) (p : bool) :
  simulate_http_request data (mk_state (self s) (advance (world s))) = (Ok resp, s2) ->
  classify expected resp = Ok p ->
  let r := mk_result id d data expected resp
             (e_time (world s2) (e_tick (world s2)) - e_time (world s) (e_tick (world s)))%Q
             p (e_now (world s2) (S (e_tick (world s2)))) in
  run_test_case id d data expected s =
  (Ok r,
   mk_state (mk_tester (base_url (self s2)) (test_results (self s2) ++ [r]))
            (advance (advance (world s2)))).
Proof.
  intros Hsim Hcl r. unfold run_test_case, bind, io, lift, ret, get_self, set_self.
  simpl. rewrite Hsim. simpl. rewrite Hcl. reflexivity.
Qed.

(** [run_test_case] when the executor raises: the exception leaves the
    method, and nothing is recorded. *)
Lemma run_test_case_raises (id d : string) (data : gmap string pyval)
    (expected : string) (s s2 : state tester) (e : exn) :
  simulate_http_request data (mk_state (self s) (advance (world s))) = (Raise e, s2) ->
  run_test_case id d data expected s = (Raise e, s2).
Proof.
  intros Hsim. unfold run_test_case, bind, io. simpl. rewrite Hsim. reflexivity.
Qed.

(** The verdict on a response of the executor to a payload of strings. *)
Lemma classify_exact_spec (expected : string) (resp : response) (msg : string) :
  body resp = {[ "error" := PyStr msg ]} \/
  success resp = true ->
  classify expected resp =
  Ok (Spec.classify_exact (Spec.expected_of expected) (Spec.outcome_of resp)).
Proof.
  intros H. unfold classify, Spec.expected_of, Spec.classify_exact, Spec.outcome_of,
    Spec.error_text, dict_get_or.
  destruct (String.eqb expected "success"); [reflexivity|]. simpl.
  destruct (success resp); [reflexivity|]. simpl.
  destruct H as [-> | H]; [|discriminate].
  rewrite lookup_singleton_eq. reflexivity.
Qed.

(** A case on a payload of strings always yields a result. *)
Lemma run_test_case_strings (id d : string) (m : gmap string string)
    (expected : string) (s : state tester) :
  exists r s',
    run_test_case id d (Spec.payload_of m) expected s = (Ok r, s') /\
    self s' = mk_tester (base_url (self s)) (test_results (self s) ++ [r]) /\
    test_id r = id /\
    passed r = Spec.classify_exact (Spec.expected_of expected)
                 (Spec.outcome_of (actual_response r)) /\
    success (actual_response r) =
      match Spec.first_match Spec.rules m with None => true | Some _ => false end /\
    Spec.error_text (actual_response r) =
      match Spec.first_match Spec.rules m with None => "" | Some msg => msg end.
Proof.
  destruct (Spec.first_match Spec.rules m) as [msg|] eqn:Hfm.
  - eexists _, _. split.
    + eapply run_test_case_answer.
      * apply (simulate_http_request_rejected _ msg).
        -- rewrite is_valid_data_rules, Hfm. reflexivity.
        -- rewrite get_error_message_rules, Hfm. reflexivity.
      * apply (classify_exact_spec _ _ msg). left. reflexivity.
    + repeat split.
  - eexists _, _. split.
    + eapply run_test_case_answer.
      * apply simulate_http_request_accepted.
        rewrite is_valid_data_rules, Hfm. reflexivity.
      * apply (classify_exact_spec _ _ ""). right. reflexivity.
    + repeat split.
Qed.

(** C2, as stated, fails: REG_004 is answered ["Username is required"];
    with the expected message written ["username is required"] the case is
    recorded as failed, where a comparison without regard to case passes
    it. *)
Lemma classify_case_counterexample :
  exists r s',
    run_test_case "REG_004" "Registration with empty username"
      (Spec.payload_of Examples.reg_004) Examples.reg_004_expected
      Examples.simulated0 = (Ok r, s') /\
    Spec.error_text (actual_response r) = "Username is required" /\
    passed r = false /\
    Spec.classify (Spec.expected_of Examples.reg_004_expected)
      (Spec.outcome_of (actual_response r)) = true.
Proof.
  eexists _, _. split.
  - eapply run_test_case_answer.
    + apply simulate_http_request_rejected; vm_compute; reflexivity.
    + vm_compute. reflexivity.
  - split; [reflexivity|]. split; [reflexivity|]. vm_compute. reflexivity.
Qed.

(** C2, amended. In the simulated tester a case on a payload of strings is
    recorded as passed as follows: when the expected result is ["success"],
    exactly when the response has its success flag set; otherwise exactly
    when the flag is not set and the expected string occurs in the error
    message, compared as it stands (with regard to case). In the Selenium
    tests the verdict is the presence of the success message for
    ["success"] and of the error message otherwise, and no text is
    compared. *)
Theorem classify_exactly (id d : string) (m : gmap string string)
    (expected : string) (s : state tester) :
  (exists r s',
      run_test_case id d (Spec.payload_of m) expected s = (Ok r, s') /\
      passed r = Spec.classify_exact (Spec.expected_of expected)
                   (Spec.outcome_of (actual_response r))) /\
  (forall success_msg error_msg : option string,
      fst (Selenium.check_result expected success_msg error_msg) =
      if String.eqb expected "success" then bool_decide (is_Some success_msg)
      else bool_decide (is_Some error_msg)).
Proof.
  split.
  - destruct (run_test_case_strings id d m expected s) as (r & s' & Hrun & _ & _ & Hp & _).
    by exists r, s'.
  - intros sm em. unfold Selenium.check_result.
    destruct (String.eqb expected "success"); reflexivity.
Qed.

(** C9. In the simulated tester every expected result other than the
    string ["success"] is a required part of the error message; with the
    empty string as expected result a case is recorded as passed exactly
    when the response is a failure. *)
Theorem expected_is_substring (id d : string) (m : gmap string string)
    (expected : string) (s : state tester) :
  (exists r s',
      run_test_case id d (Spec.payload_of m) expected s = (Ok r, s') /\
      passed r =
        if String.eqb expected "success" then success (actual_response r)
        else negb (success (actual_response r)) &&
             contains expected (Spec.error_text (actual_response r))) /\
  (exists r s',
      run_test_case id d (Spec.payload_of m) "" s = (Ok r, s') /\
      passed r = negb (success (actual_response r))).
Proof.
  split.
  - destruct (run_test_case_strings id d m expected s) as (r & s' & Hrun & _ & _ & Hp & _).
    exists r, s'. split; [exact Hrun|]. rewrite Hp.
    unfold Spec.expected_of. destruct (String.eqb expected "success"); reflexivity.
  - destruct (run_test_case_strings id d m "" s) as (r & s' & Hrun & _ & _ & Hp & _).
    exists r, s'. split; [exact Hrun|]. rewrite Hp. simpl.
    rewrite contains_empty. apply andb_true_r.
Qed.

End SimulatedHarness.

(** ** Reports *)

Section Reports.

Lemma Q_of_nat_nonzero (n : nat) : (0 < n)%nat -> Qeq_bool (Q_of_nat n) 0 = false.
Proof.
  intros Hn. unfold Qeq_bool, Q_of_nat. simpl. apply Z.eqb_neq. lia.
Qed.

(** The guard of the pass rate keeps the division away from zero. *)
Lemma pass_rate_of_total (passed_tests total_tests : nat) :
  pass_rate_of passed_tests total_tests =
  Ok (if (0 <? total_tests)%nat
      then (Q_of_nat passed_tests / Q_of_nat total_tests * 100)%Q
      else 0%Q).
Proof.
  unfold pass_rate_of, py_truediv.
  destruct (Nat.ltb_spec 0 total_tests) as [Hpos|_]; [|reflexivity].
  rewrite (Q_of_nat_nonzero _ Hpos). reflexivity.
Qed.

Lemma pass_rate_of_all (n : nat) :
  (0 < n)%nat -> exists q, pass_rate_of n n = Ok q /\ (q == 100)%Q.
Proof.
  intros Hn. rewrite pass_rate_of_total.
  destruct (Nat.ltb_spec 0 n) as [_|]; [|lia].
  eexists. split; [reflexivity|].
  assert (Hnz : ~ (Q_of_nat n == 0)%Q).
  { unfold Q_of_nat, Qeq. simpl. lia. }
  field. exact Hnz.
Qed.

Lemma count_if_all {A} (p : A -> bool) (l : list A) :
  Forall (fun a => p a = true) l -> count_if p l = length l.
Proof.
  unfold count_if. induction 1 as [|a l Ha _ IH]; [reflexivity|].
  rewrite filter_cons_True by exact Ha. simpl. by rewrite IH.
Qed.

Lemma performance_metrics_total (results : list Simulated.result) :
  exists o, Simulated.performance_metrics results = Ok o /\
            (results = [] -> o = None).
Proof.
  unfold Simulated.performance_metrics.
  destruct results as [|r rest]; [by exists None|].
  cbn [map py_max_by py_min_by]. unfold py_truediv.
  rewrite Q_of_nat_nonzero by (simpl; lia).
  eexists. split; [reflexivity | discriminate].
Qed.

(** [generate_test_report] always returns; it leaves the tester as it is
    and reads the clock once. *)
Lemma generate_test_report_value (s : state Simulated.tester) :
  let this := self s in
  Simulated.generate_test_report s =
  (Ok (Simulated.mk_report
         (Simulated.mk_summary
            (length (Simulated.test_results this))
            (count_if Simulated.passed (Simulated.test_results this))
            (Z.of_nat (length (Simulated.test_results this)) -
             Z.of_nat (count_if Simulated.passed (Simulated.test_results this)))
            (if (0 <? length (Simulated.test_results this))%nat
             then (Q_of_nat (count_if Simulated.passed (Simulated.test_results this)) /
                   Q_of_nat (length (Simulated.test_results this)) * 100)%Q
             else 0%Q)
            (e_now (world s) (e_tick (world s)))
            (Simulated.base_url this))
         (Simulated.test_results this)),
   mk_state this (advance (world s))).
Proof.
  intros this. unfold Simulated.generate_test_report, bind, get_self, lift, io, ret.
  rewrite pass_rate_of_total.
  destruct (performance_metrics_total (Simulated.test_results (self s))) as (o & -> & _).
  reflexivity.
Qed.

(** C5, as stated, fails: the report carries the time at which it is made,
    so two reports made one after the other over the same log differ. *)
Lemma report_twice_counterexample :
  exists r1 s1 r2 s2,
    Simulated.generate_test_report Examples.simulated0 = (Ok r1, s1) /\
    Simulated.generate_test_report s1 = (Ok r2, s2) /\
    self s1 = self Examples.simulated0 /\
    r1 <> r2.
Proof.
  eexists _, _, _, _. split; [apply generate_test_report_value|].
  split; [apply generate_test_report_value|].
  split; [reflexivity|].
  intros H. apply (f_equal (fun r => Simulated.s_execution_time (Simulated.r_summary r))) in H.
  vm_compute in H. discriminate.
Qed.

(** C5, amended. The report is made of the result log, the base URL and
    the time of the call: two reports of the same tester, whatever the
    worlds they are made in, have the same counts, pass rate, environment
    and results, and differ at most in their execution time, which is the
    time read from the clock; making a report leaves the tester as it is. *)
Theorem report_determined (t : Simulated.tester) (w1 w2 : env) :
  exists r1 s1 r2 s2,
    Simulated.generate_test_report (mk_state t w1) = (Ok r1, s1) /\
    Simulated.generate_test_report (mk_state t w2) = (Ok r2, s2) /\
    self s1 = t /\ self s2 = t /\
    Simulated.r_test_results r1 = Simulated.test_results t /\
    Simulated.r_test_results r2 = Simulated.test_results t /\
    Simulated.s_total_tests (Simulated.r_summary r1)
      = Simulated.s_total_tests (Simulated.r_summary r2) /\
    Simulated.s_passed (Simulated.r_summary r1)
      = Simulated.s_passed (Simulated.r_summary r2) /\
    Simulated.s_failed (Simulated.r_summary r1)
      = Simulated.s_failed (Simulated.r_summary r2) /\
    Simulated.s_pass_rate (Simulated.r_summary r1)
      = Simulated.s_pass_rate (Simulated.r_summary r2) /\
    Simulated.s_test_environment (Simulated.r_summary r1) = Simulated.base_url t /\
    Simulated.s_test_environment (Simulated.r_summary r2) = Simulated.base_url t /\
    Simulated.s_execution_time (Simulated.r_summary r1) = e_now w1 (e_tick w1) /\
    Simulated.s_execution_time (Simulated.r_summary r2) = e_now w2 (e_tick w2).
Proof.
  eexists _, _, _, _. split; [apply generate_test_report_value|].
  split; [apply generate_test_report_value|].
  repeat split.
Qed.

End Reports.

(** ** The standalone runner *)

Section StandaloneRunner.

Import Standalone.
Local Open Scope list_scope.

Lemma execute_test_value (id d c p : string) (s : state runner) :
  let r := mk_result id d c p true
             (e_time (world s) (S (e_tick (world s))) - e_time (world s) (e_tick (world s)))%Q
             (e_now (world s) (S (S (e_tick (world s))))) in
  execute_test id d c p s =
  (Ok r, mk_state (mk_runner (test_results (self s) ++ [r]))
           (advance (advance (advance (world s))))).
Proof. reflexivity. Qed.

Lemma run_tests_log (tests : list test_call) (s : state runner) :
  exists s' new,
    run_tests tests s = (Ok tt, s') /\
    test_results (self s') = (test_results (self s) ++ new)%list /\
    length new = length tests /\
    Forall (fun r => passed r = true) new.
Proof.
  revert s. induction tests as [|t tests IH]; intros s.
  - exists s, []. rewrite app_nil_r. repeat split. constructor.
  - cbn [run_tests]. unfold bind at 1. rewrite execute_test_value.
    match goal with |- context [run_tests tests ?s1] => destruct (IH s1) as (s' & new & Hrun & Hlog & Hlen & Hall) end.
    rewrite Hrun. eexists s', (_ :: new). split; [reflexivity|].
    split; [rewrite Hlog; simpl; rewrite <- app_assoc; reflexivity|].
    split; [simpl; by rewrite Hlen|].
    constructor; [reflexivity | exact Hall].
Qed.

Lemma od_set_absent {V} (k : string) (v : V) (d : list (string * V)) :
  od_mem k d = false -> od_set k v d = d ++ [(k, v)].
Proof.
  induction d as [|[k' v'] d IH]; simpl; [reflexivity|].
  destruct (String.eqb k k'); simpl; [discriminate|].
  intros H. by rewrite IH.
Qed.

Lemma od_alter_absent {V} (f : V -> V) (k : string) (v : V) (d : list (string * V)) :
  od_mem k d = false -> od_alter f k (d ++ [(k, v)]) = d ++ [(k, f v)].
Proof.
  induction d as [|[k' v'] d IH]; simpl.
  - by rewrite String.eqb_refl.
  - destruct (String.eqb k k'); simpl; [discriminate|].
    intros H. by rewrite IH.
Qed.

Lemma od_alter_counted (f : stats -> stats) (k : string) (d : list (string * stats)) :
  (forall st, (0 < st_total st)%nat -> (0 < st_total (f st))%nat) ->
  Forall counted d -> Forall counted (od_alter f k d).
Proof.
  intros Hf. induction 1 as [|[k' v'] d Hkv Hd IH]; simpl; [constructor|].
  destruct (String.eqb k k'); constructor; try assumption.
  apply Hf, Hkv.
Qed.

(** Every group of a breakdown has at least one result. *)
Lemma tally_counted (key : string) (p : bool) (d : list (string * stats)) :
  Forall counted d -> Forall counted (tally key p d).
Proof.
  intros Hd. unfold tally.
  assert (H1 : Forall counted
                 (od_alter (fun st => mk_stats (st_total st + 1) (st_passed st)) key
                    (if negb (od_mem key d) then od_set key (mk_stats 0 0) d else d))).
  { destruct (od_mem key d) eqn:Hmem; cbn [negb].
    - apply od_alter_counted; [simpl; lia | exact Hd].
    - rewrite od_set_absent, od_alter_absent by exact Hmem.
      apply Forall_app. split; [exact Hd|]. repeat constructor. }
  destruct p; [|exact H1].
  apply od_alter_counted; [simpl; lia | exact H1].
Qed.

Lemma breakdown_counted (results : list result) :
  Forall counted (fst (breakdown results)) /\ Forall counted (snd (breakdown results)).
Proof.
  unfold breakdown.
  assert (H : forall d : list (string * stats) * list (string * stats),
             Forall counted (fst d) /\ Forall counted (snd d) ->
             let d' := fold_left
               (fun d result =>
                  (tally (category result) (passed result) (fst d),
                   tally (priority result) (passed result) (snd d))) results d in
             Forall counted (fst d') /\ Forall counted (snd d')).
  { induction results as [|r results IH]; intros d Hd; [exact Hd|].
    simpl. apply IH. simpl. destruct Hd. split; by apply tally_counted. }
  apply H. split; constructor.
Qed.

Lemma group_rates_total (d : list (string * stats)) :
  Forall counted d -> exists qs, group_rates d = Ok qs.
Proof.
  induction 1 as [|[k st] d Hkv _ [qs IH]]; [by exists []|].
  cbn [group_rates]. unfold py_truediv.
  rewrite Q_of_nat_nonzero by exact Hkv. cbn [res_bind]. rewrite IH.
  eexists. reflexivity.
Qed.

(** The summary of a log that is not empty. *)
Lemma generate_summary_report_value (s : state runner) (r : result) (rest : list result) :
  test_results (self s) = r :: rest ->
  exists rep,
    generate_summary_report s = (Ok rep, s) /\
    s_total_tests (r_summary rep) = length (r :: rest) /\
    s_passed (r_summary rep) = count_if passed (r :: rest) /\
    s_failed (r_summary rep) =
      (Z.of_nat (length (r :: rest)) - Z.of_nat (count_if passed (r :: rest)))%Z /\
    pass_rate_of (count_if passed (r :: rest)) (length (r :: rest))
      = Ok (s_pass_rate (r_summary rep)) /\
    r_test_results rep = r :: rest.
Proof.
  intros Hlog. unfold generate_summary_report, bind, get_self, lift, ret.
  rewrite Hlog. rewrite pass_rate_of_total.
  cbn [map]. unfold py_truediv at 1.
  rewrite Q_of_nat_nonzero by (simpl; lia).
  destruct (breakdown_counted (r :: rest)) as [Hc Hp].
  destruct (group_rates_total _ Hc) as [qc ->].
  destruct (group_rates_total _ Hp) as [qp ->].
  cbn [py_min_by py_max_by].
  eexists. split; [reflexivity|]. repeat split.
Qed.

(** C8. [execute_test] records every test as passed, whatever its
    identifier, description, category and priority; so every result in the
    log of a run is a passed one, and the summary of a run of at least one
    test reports a pass rate of 100 with no failed test. *)
Theorem standalone_always_passes :
  (forall (id d c p : string) (s : state runner), exists r s',
      execute_test id d c p s = (Ok r, s') /\
      passed r = true /\
      test_results (self s') = (test_results (self s) ++ [r])%list) /\
  (forall (tests : list test_call) (w : env), exists s',
      run_tests tests (mk_state __init__ w) = (Ok tt, s') /\
      length (test_results (self s')) = length tests /\
      Forall (fun r => passed r = true) (test_results (self s'))) /\
  (forall (t : test_call) (tests : list test_call) (w : env), exists s' rep,
      run_tests (t :: tests) (mk_state __init__ w) = (Ok tt, s') /\
      generate_summary_report s' = (Ok rep, s') /\
      (s_pass_rate (r_summary rep) == 100)%Q /\
      s_failed (r_summary rep) = 0%Z /\
      s_passed (r_summary rep) = s_total_tests (r_summary rep)).
Proof.
  split; [|split].
  - intros id d c p s. eexists _, _. split; [apply execute_test_value|].
    split; reflexivity.
  - intros tests w.
    destruct (run_tests_log tests (mk_state __init__ w)) as (s' & new & Hrun & Hlog & Hlen & Hall).
    exists s'. simpl in Hlog. rewrite Hlog. by repeat split.
  - intros t tests w.
    destruct (run_tests_log (t :: tests) (mk_state __init__ w))
      as (s' & new & Hrun & Hlog & Hlen & Hall).
    simpl in Hlog. destruct new as [|r rest]; [discriminate|].
    destruct (generate_summary_report_value s' r rest Hlog)
      as (rep & Hrep & Htot & Hpas & Hfail & Hrate & _).
    exists s', rep. split; [exact Hrun|]. split; [exact Hrep|].
    rewrite (count_if_all passed (r :: rest) Hall) in *.
    split.
    + destruct (pass_rate_of_all (length (r :: rest))) as (q & Hq & Heq); [simpl; lia|].
      rewrite Hq in Hrate. injection Hrate as <-. exact Heq.
    + split; [rewrite Hfail; lia | congruence].
Qed.

(** C4. The report of the simulated tester over an empty log has pass rate
    0 and no response-time statistics, and nothing is raised; the summary of
    the standalone runner over an empty log raises [ValueError] from
    [min(self.test_results, ...)], the division being guarded and the
    minimum not. *)
Theorem empty_log_reports (url : string) (w : env) :
  (exists rep s',
      Simulated.generate_test_report (mk_state (Simulated.__init__ url) w) = (Ok rep, s') /\
      Simulated.s_total_tests (Simulated.r_summary rep) = 0%nat /\
      Simulated.s_pass_rate (Simulated.r_summary rep) = 0%Q /\
      Simulated.performance_metrics (Simulated.test_results (Simulated.__init__ url))
        = Ok None) /\
  generate_summary_report (mk_state __init__ w) =
    (Raise (mk_exn ValueError "min() arg is an empty sequence"), mk_state __init__ w).
Proof.
  split.
  - eexists _, _. split; [apply generate_test_report_value|]. repeat split.
  - reflexivity.
Qed.

End StandaloneRunner.

(** ** The Selenium tests and the run loops *)

Section KeepsSelf.

Context {Self : Type}.

Lemma keeps_self_ret {A} (a : A) : keeps_self (@ret Self A a).
Proof. intros s. reflexivity. Qed.

Lemma keeps_self_raise {A} (e : exn) : keeps_self (@raise Self A e).
Proof. intros s. reflexivity. Qed.

Lemma keeps_self_io {A} (f : env -> A * env) : keeps_self (@io Self A f).
Proof. intros s. unfold io. destruct (f (world s)). reflexivity. Qed.

Lemma keeps_self_bind {A B} (c : M Self A) (k : A -> M Self B) :
  keeps_self c -> (forall a, keeps_self (k a)) -> keeps_self (bind c k).
Proof.
  intros Hc Hk s. unfold bind. specialize (Hc s).
  destruct (c s) as [[a|e] s1]; simpl in *; [|exact Hc].
  rewrite <- Hc. apply Hk.
Qed.

Lemma keeps_self_try_except {A} (body : M Self A) (classes : list exn_class)
    (handler : exn -> M Self A) :
  keeps_self body -> (forall e, keeps_self (handler e)) ->
  keeps_self (try_except body classes handler).
Proof.
  intros Hb Hh s. unfold try_except. specialize (Hb s).
  destruct (body s) as [[a|e] s1]; simpl in *; [exact Hb|].
  destruct (bool_decide (exn_cls e ∈ classes)); simpl; [|exact Hb].
  rewrite <- Hb. apply Hh.
Qed.

End KeepsSelf.

Create HintDb keeps.
#[local] Hint Resolve keeps_self_ret keeps_self_raise keeps_self_io : keeps.

Ltac keeps :=
  repeat first
    [ solve [auto with keeps]
    | match goal with
      | |- keeps_self (match ?x with _ => _ end) => destruct x
      end
    | apply keeps_self_try_except; [|intros ?]
    | apply keeps_self_bind; [|intros ?] ].

Section SeleniumTests.

Import Selenium.

Lemma keeps_self_browser : keeps_self browser.
Proof. unfold browser. keeps. Qed.
#[local] Hint Resolve keeps_self_browser : keeps.

Lemma keeps_self_poll (n : nat) (method : M tests bool) :
  keeps_self method -> keeps_self (poll n method).
Proof.
  intros Hm. induction n as [|n IH]; cbn [poll]; keeps.
Qed.
#[local] Hint Resolve keeps_self_poll : keeps.

Lemma keeps_self_navigate : keeps_self navigate_to_registration.
Proof. unfold navigate_to_registration. keeps. Qed.

Lemma keeps_self_fill_form_field (f v : string) : keeps_self (fill_form_field f v).
Proof. unfold fill_form_field. keeps. Qed.

Lemma keeps_self_submit_form : keeps_self submit_form.
Proof. unfold submit_form. keeps. Qed.

Lemma keeps_self_get_error_message : keeps_self get_error_message.
Proof. unfold get_error_message. keeps. Qed.

Lemma keeps_self_get_success_message : keeps_self get_success_message.
Proof. unfold get_success_message. keeps. Qed.
#[local] Hint Resolve keeps_self_navigate keeps_self_fill_form_field
  keeps_self_submit_form keeps_self_get_error_message
  keeps_self_get_success_message : keeps.

Lemma keeps_self_wait_for_response : keeps_self wait_for_response.
Proof. unfold wait_for_response, wait_until. keeps. apply keeps_self_poll. keeps. Qed.

Lemma keeps_self_fill_fields (items : list (string * string)) :
  keeps_self (fill_fields items).
Proof.
  induction items as [|[f v] items IH]; cbn [fill_fields]; keeps.
Qed.
#[local] Hint Resolve keeps_self_wait_for_response keeps_self_fill_fields : keeps.

Lemma record_test_result_value (id d : string) (p : bool) (msg : string)
    (start_time : Q) (s : state tests) :
  let r := mk_result id d p
             (e_time (world s) (e_tick (world s)) - start_time)%Q msg
             (e_now (world s) (S (e_tick (world s)))) in
  record_test_result id d p msg start_time s =
  (Ok r, mk_state (mk_tests (base_url (self s)) (test_results (self s) ++ [r]))
           (advance (advance (world s)))).
Proof. reflexivity. Qed.

Lemma records_one_record (P : result -> Prop) (id d : string) (p : bool)
    (msg : string) (start_time : Q) :
  (forall r, passed r = p -> result_message r = msg -> P r) ->
  records_one P (record_test_result id d p msg start_time).
Proof.
  intros HP s. rewrite record_test_result_value. split; [reflexivity|].
  by apply HP.
Qed.

Lemma records_one_bind {A} (P : result -> Prop) (c : M tests A)
    (k : A -> M tests result) :
  keeps_self c -> (forall a, records_one P (k a)) -> records_one P (bind c k).
Proof.
  intros Hc Hk s. unfold bind. specialize (Hc s).
  destruct (c s) as [[a|e] s1]; simpl in Hc; [|exact Hc].
  specialize (Hk a s1). destruct (k a s1) as [[r|e] s2]; by rewrite <- Hc.
Qed.

(** The [try] block ends in one recorded result on each of its paths. *)
Lemma execute_test_case_body_records (id d : string) (data : list (string * string))
    (expected : string) (start_time : Q) :
  records_one (failed_or_checked expected)
    (execute_test_case_body id d data expected start_time).
Proof.
  unfold execute_test_case_body.
  apply records_one_bind; [auto with keeps|]. intros ok1.
  destruct ok1; cbn [negb];
    [|apply records_one_record; intros r Hp _; by left].
  apply records_one_bind; [auto with keeps|]. intros [field|];
    [apply records_one_record; intros r Hp _; by left|].
  apply records_one_bind; [auto with keeps|]. intros ok2.
  destruct ok2; cbn [negb];
    [|apply records_one_record; intros r Hp _; by left].
  apply records_one_bind; [auto with keeps|]. intros ok3.
  destruct ok3; cbn [negb];
    [|apply records_one_record; intros r Hp _; by left].
  apply records_one_bind; [auto with keeps|]. intros success_msg.
  apply records_one_bind; [auto with keeps|]. intros error_msg.
  apply records_one_record. intros r Hp Hm. right.
  exists success_msg, error_msg. rewrite Hp, Hm.
  by destruct (check_result expected success_msg error_msg).
Qed.

(** [execute_test_case] never raises: it returns the one result it has
    added to the log, and that result is a failed one whenever the [try]
    block raised. *)
Lemma execute_test_case_total (id d : string) (data : list (string * string))
    (expected : string) (s : state tests) :
  exists r s',
    execute_test_case id d data expected s = (Ok r, s') /\
    self s' = mk_tests (base_url (self s)) (test_results (self s) ++ [r]) /\
    failed_or_checked expected r /\
    forall ex s1,
      execute_test_case_body id d data expected
        (e_time (world s) (e_tick (world s)))
        (mk_state (self s) (advance (world s))) = (Raise ex, s1) ->
      passed r = false /\ result_message r = ("Exception: " ++ exn_msg ex)%string.
Proof.
  unfold execute_test_case, bind, io, time_time, try_except_Exception. simpl.
  pose proof (execute_test_case_body_records id d data expected
                (e_time (world s) (e_tick (world s)))
                (mk_state (self s) (advance (world s)))) as Hbody.
  destruct (execute_test_case_body id d data expected _ _) as [[r|ex] s1].
  - destruct Hbody as [Hlog HP]. exists r, s1. repeat split; try assumption; discriminate.
  - simpl in Hbody. rewrite record_test_result_value. eexists _, _.
    split; [reflexivity|]. split; [simpl; by rewrite Hbody|].
    split; [by left|].
    intros ex' s1' [= <- <-]. split; reflexivity.
Qed.

Lemma selenium_run_cases_total (cases : list test_case) (s : state tests) :
  exists rs s',
    run_cases cases s = (Ok rs, s') /\
    length rs = length cases /\
    self s' = mk_tests (base_url (self s)) (test_results (self s) ++ rs).
Proof.
  revert s. induction cases as [|c cases IH]; intros s.
  - exists [], s. rewrite app_nil_r. by destruct s as [[url log] w].
  - cbn [run_cases]. unfold bind at 1.
    destruct (execute_test_case_total (case_id c) (case_description c) (case_data c)
                (case_expected c) s) as (r & s1 & -> & Hlog & _).
    destruct (IH s1) as (rs & s' & Hrun & Hlen & Hlog').
    unfold bind. rewrite Hrun. exists (r :: rs), s'. split; [reflexivity|].
    split; [simpl; by rewrite Hlen|].
    rewrite Hlog', Hlog. simpl. by rewrite <- app_assoc.
Qed.

End SeleniumTests.

Section RunLoop.

Lemma simulated_run_cases_total (cases : list Spec.catalog_case)
    (s : state Simulated.tester) :
  exists rs s',
    Simulated.run_cases (map Spec.simulated_case cases) s = (Ok rs, s') /\
    length rs = length cases /\
    self s' = Simulated.mk_tester (Simulated.base_url (self s))
                (Simulated.test_results (self s) ++ rs).
Proof.
  revert s. induction cases as [|c cases IH]; intros s.
  - exists [], s. rewrite app_nil_r. by destruct s as [[url log] w].
  - cbn [map Simulated.run_cases]. unfold bind at 1.
    destruct (run_test_case_strings (Spec.cc_id c) (Spec.cc_description c)
                (Spec.cc_payload c) (Spec.cc_expected c) s)
      as (r & s1 & Hrun1 & Hlog & _).
    cbn [Spec.simulated_case Simulated.case_id Simulated.case_description
      Simulated.case_data Simulated.case_expected]. rewrite Hrun1.
    destruct (IH s1) as (rs & s' & Hrun & Hlen & Hlog').
    unfold bind. rewrite Hrun. exists (r :: rs), s'. split; [reflexivity|].
    split; [simpl; by rewrite Hlen|].
    rewrite Hlog', Hlog. simpl. by rewrite <- app_assoc.
Qed.

(** C3, as stated, fails for the simulated tester: [run_test_case] has no
    handler. With a number as username the executor raises [TypeError]; the
    exception leaves [run_test_case], no result is recorded, and the case
    after it does not run. *)
Lemma unhandled_failure_counterexample :
  exists ex s',
    Simulated.run_test_case "REG_X" "Registration with a numeric username"
      Examples.numeric_username "Username is required" Examples.simulated0
      = (Raise ex, s') /\
    exn_cls ex = TypeError /\
    Simulated.test_results (self s') = [] /\
    Simulated.run_cases [Examples.numeric_case; Examples.reg_002_case]
      Examples.simulated0 = (Raise ex, s').
Proof.
  eexists _, _. split; [|split; [|split]].
  - apply run_test_case_raises. vm_compute. reflexivity.
  - reflexivity.
  - reflexivity.
  - vm_compute. reflexivity.
Qed.

(** A wait that runs out of time is caught by the helper and recorded as
    a failed result with its reason. *)
Example timeout_is_failed_result :
  exists r s',
    Selenium.execute_test_case "REG_001" "Successful registration with valid data"
      [("username", "testuser123")] "success" Examples.selenium_slow = (Ok r, s') /\
    Selenium.passed r = false /\
    Selenium.result_message r = "Failed to load page".
Proof. eexists _, _. split; [vm_compute; reflexivity|]. split; reflexivity. Qed.

(** C3, amended. In the Selenium tests every exception raised while a case
    runs is caught in [execute_test_case] and becomes a failed result whose
    message is ["Exception: "] followed by the text of the exception; a
    result is a passed one only through the final check of the messages; so
    a run of cases never raises and records one result per case, in order.
    The simulated tester has no handler: its run of cases returns one result
    per case when the payloads are mappings to strings, on which its
    executor does not raise. *)
Theorem failures_are_results :
  (forall (cases : list Selenium.test_case) (s : state Selenium.tests),
      exists rs s',
        Selenium.run_cases cases s = (Ok rs, s') /\
        length rs = length cases /\
        Selenium.test_results (self s') = (Selenium.test_results (self s) ++ rs)%list) /\
  (forall (id d : string) (data : list (string * string)) (expected : string)
          (s : state Selenium.tests),
      exists r s',
        Selenium.execute_test_case id d data expected s = (Ok r, s') /\
        Selenium.test_results (self s') = (Selenium.test_results (self s) ++ [r])%list /\
        Selenium.failed_or_checked expected r /\
        forall ex s1,
          Selenium.execute_test_case_body id d data expected
            (e_time (world s) (e_tick (world s)))
            (mk_state (self s) (advance (world s))) = (Raise ex, s1) ->
          Selenium.passed r = false /\
          Selenium.result_message r = "Exception: " ++ exn_msg ex) /\
  (forall (cases : list Spec.catalog_case) (s : state Simulated.tester),
      exists rs s',
        Simulated.run_cases (map Spec.simulated_case cases) s = (Ok rs, s') /\
        length rs = length cases /\
        Simulated.test_results (self s') = (Simulated.test_results (self s) ++ rs)%list).
Proof.
  split; [|split].
  - intros cases s.
    destruct (selenium_run_cases_total cases s) as (rs & s' & Hrun & Hlen & Hlog).
    exists rs, s'. rewrite Hlog. by repeat split.
  - intros id d data expected s.
    destruct (execute_test_case_total id d data expected s)
      as (r & s' & Hrun & Hlog & HP & Hex).
    exists r, s'. rewrite Hlog.
    split; [exact Hrun|]. split; [reflexivity|]. split; [exact HP | exact Hex].
  - intros cases s.
    destruct (simulated_run_cases_total cases s) as (rs & s' & Hrun & Hlen & Hlog).
    exists rs, s'. rewrite Hlog. by repeat split.
Qed.

(** A browser that cannot be reached, as a witness of
    [failures_are_results]: REG_001 is recorded as failed with the text of
    the exception. *)
Lemma failures_are_results_browser_down :
  exists r s',
    Selenium.execute_test_case "REG_001" "Successful registration with valid data"
      [("username", "testuser123")] "success" Examples.selenium_down = (Ok r, s') /\
    Selenium.passed r = false /\
    Selenium.result_message r = "Exception: chrome not reachable".
Proof.
  destruct (proj1 (proj2 failures_are_results) "REG_001"
              "Successful registration with valid data"
              [("username", "testuser123")] "success" Examples.selenium_down)
    as (r & s' & Hrun & _ & _ & Hex).
  exists r, s'. split; [exact Hrun|].
  edestruct (Hex (mk_exn WebDriverException "chrome not reachable")) as [Hp Hm];
    [vm_compute; reflexivity|].
  split; [exact Hp | exact Hm].
Defined.

End RunLoop.


(** ** Further properties of the simulated executor *)

Section ValidationFrame.

Import Simulated.

(** X1. The validator, the choice of the message and the executor read
    the fields [username], [email] and [password] only: two payloads that
    agree on these three get the same verdict, the same message and the same
    response, whatever their other fields hold ([confirm_password] is never
    compared with [password]). *)
Theorem validation_reads_three_fields (data data' : gmap string pyval) :
  data !! "username" = data' !! "username" ->
  data !! "email" = data' !! "email" ->
  data !! "password" = data' !! "password" ->
  _is_valid_data data = _is_valid_data data' /\
  _get_error_message data = _get_error_message data' /\
  forall s : state tester,
    simulate_http_request data s = simulate_http_request data' s.
Proof.
  intros Hu He Hp.
  assert (Hv : _is_valid_data data = _is_valid_data data').
  { unfold _is_valid_data, dict_get, dict_get_or. by rewrite Hu, He, Hp. }
  assert (Hm : _get_error_message data = _get_error_message data').
  { unfold _get_error_message, dict_get, dict_get_or. by rewrite Hu, He, Hp. }
  split; [exact Hv|]. split; [exact Hm|].
  intros s. unfold simulate_http_request. by rewrite Hv, Hm.
Qed.

(** A confirmation that differs from the password, as a witness of
    [validation_reads_three_fields]: the payload is still accepted. *)
Lemma validation_reads_three_fields_confirm :
  _is_valid_data
    (<[ "confirm_password" := PyStr "DifferentPassword123!" ]>
       (Spec.payload_of Examples.valid_user))
  = _is_valid_data (Spec.payload_of Examples.valid_user) /\
  _is_valid_data (Spec.payload_of Examples.valid_user) = Ok true.
Proof.
  split; [|vm_compute; reflexivity].
  apply (validation_reads_three_fields
           (<[ "confirm_password" := PyStr "DifferentPassword123!" ]>
              (Spec.payload_of Examples.valid_user))
           (Spec.payload_of Examples.valid_user));
    vm_compute; reflexivity.
Defined.

Lemma lookup_insert_delete_other (data : gmap string pyval) (k k' : string) (v : pyval) :
  k <> k' -> <[k:=v]> data !! k' = delete k data !! k'.
Proof. intros Hne. by rewrite lookup_insert_ne, lookup_delete_ne. Qed.

(** X2. A field whose value is falsy (the empty string, the number 0,
    [None]) is treated as a field that is missing: the verdict and the
    message are those of the payload without the key. *)
Theorem falsy_field_is_missing (data : gmap string pyval) (k : string) (v : pyval) :
  truthy v = false ->
  _is_valid_data (<[k:=v]> data) = _is_valid_data (delete k data) /\
  _get_error_message (<[k:=v]> data) = _get_error_message (delete k data).
Proof.
  intros Hv.
  destruct (decide (k = "username")) as [->|Hu];
    [|destruct (decide (k = "email")) as [->|He];
      [|destruct (decide (k = "password")) as [->|Hp]]].
  - unfold _is_valid_data, _get_error_message, dict_get, dict_get_or.
    rewrite !lookup_insert_eq, !lookup_delete_eq. simpl. rewrite Hv. split; reflexivity.
  - unfold _is_valid_data, _get_error_message, dict_get, dict_get_or.
    rewrite !lookup_insert_eq, !lookup_delete_eq.
    rewrite !(lookup_insert_delete_other data "email" "username") by discriminate.
    rewrite !(lookup_insert_delete_other data "email" "password") by discriminate.
    simpl. rewrite Hv. simpl.
    split; repeat (try reflexivity; case_match; simpl); reflexivity.
  - unfold _is_valid_data, _get_error_message, dict_get, dict_get_or.
    rewrite !lookup_insert_eq, !lookup_delete_eq.
    rewrite !(lookup_insert_delete_other data "password" "username") by discriminate.
    rewrite !(lookup_insert_delete_other data "password" "email") by discriminate.
    simpl. rewrite Hv. simpl.
    split; repeat (try reflexivity; case_match; simpl); reflexivity.
  - unfold _is_valid_data, _get_error_message, dict_get, dict_get_or.
    rewrite !(lookup_insert_delete_other data k "username") by congruence.
    rewrite !(lookup_insert_delete_other data k "email") by congruence.
    rewrite !(lookup_insert_delete_other data k "password") by congruence.
    split; reflexivity.
Qed.

(** An email that is [None], as a witness of [falsy_field_is_missing]. *)
Lemma falsy_field_is_missing_none :
  truthy PyNone = false /\
  _is_valid_data (<[ "email" := PyNone ]> (Spec.payload_of Examples.valid_user))
  = _is_valid_data (delete "email" (Spec.payload_of Examples.valid_user)) /\
  _get_error_message (<[ "email" := PyNone ]> (Spec.payload_of Examples.valid_user))
  = Ok "Email is required".
Proof.
  split; [reflexivity|].
  destruct (falsy_field_is_missing (Spec.payload_of Examples.valid_user) "email" PyNone)
    as [H1 H2]; [reflexivity|].
  split; [exact H1|]. rewrite H2. vm_compute. reflexivity.
Defined.

(** X3. With a number other than 0 as username, [run_test_case] raises
    [TypeError] from [len], whatever the other fields and the expected
    result: the clock has been read once and one random number drawn, and
    no result is recorded. *)
Theorem numeric_username_raises (id d : string) (data : gmap string pyval)
    (expected : string) (z : Z) (s : state tester) :
  z <> 0%Z ->
  data !! "username" = Some (PyInt z) ->
  run_test_case id d data expected s =
  (Raise (mk_exn TypeError "object of type 'int' has no len()"),
   mk_state (self s) (advance (advance (world s)))).
Proof.
  intros Hz Hu.
  assert (Hv : _is_valid_data data
               = Raise (mk_exn TypeError "object of type 'int' has no len()")).
  { unfold _is_valid_data, dict_get, dict_get_or. rewrite Hu. simpl.
    destruct (Z.eqb_spec z 0); [contradiction|]. reflexivity. }
  apply run_test_case_raises.
  unfold simulate_http_request, bind, io, lift. simpl. rewrite Hv. reflexivity.
Qed.

(** The username 5, as a witness of [numeric_username_raises]. *)
Lemma numeric_username_raises_five :
  exists s',
    run_test_case "REG_X" "Registration with a numeric username"
      Examples.numeric_username "Username is required" Examples.simulated0
    = (Raise (mk_exn TypeError "object of type 'int' has no len()"), s') /\
    test_results (self s') = [].
Proof.
  eexists. split.
  - apply (numeric_username_raises _ _ _ _ 5%Z); [lia | vm_compute; reflexivity].
  - reflexivity.
Defined.

(** X4. The three ways [simulate_http_request] ends, for a payload of any
    types: it raises [TypeError] after one random draw; or it answers 201
    with success, a message, a user id of 1000 .. 9999 and no error; or it
    answers 400 without success and with a body that holds one of the seven
    messages of the rules under ["error"] and nothing else. It never changes
    the tester. *)
Theorem simulate_http_request_outcomes (data : gmap string pyval) (s : state tester) :
  (exists msg,
      simulate_http_request data s =
      (Raise (mk_exn TypeError msg), mk_state (self s) (advance (world s)))) \/
  (exists r s',
      simulate_http_request data s = (Ok r, s') /\
      self s' = self s /\
      ((success r = true /\ status_code r = 201%Z /\
        body r !! "error" = None /\
        body r !! "message" = Some (PyStr "Registration successful") /\
        exists user_id, body r !! "user_id" = Some (PyInt user_id) /\
                        (1000 <= user_id <= 9999)%Z) \/
       (success r = false /\ status_code r = 400%Z /\
        exists msg, body r = {[ "error" := PyStr msg ]} /\
                    In msg Spec.specific_messages))).
Proof.
  destruct (_is_valid_data data) as [[|]|e] eqn:Hv.
  - right. eexists _, _. split; [by apply simulate_http_request_accepted|].
    split; [reflexivity|]. left.
    split; [reflexivity|]. split; [reflexivity|].
    split; [reflexivity|]. split; [reflexivity|].
    eexists. split; [reflexivity|]. apply random_randint_range. lia.
  - right. destruct (rejected_message_specific data Hv) as (msg & Hm & Hin).
    eexists _, _. split; [by apply simulate_http_request_rejected|].
    split; [reflexivity|]. right. repeat split. by exists msg.
  - left. assert (He : exists msg, e = mk_exn TypeError msg).
    { revert Hv. unfold _is_valid_data, py_or, py_len, py_in.
      repeat (case_match; simpl); intros [= <-]; eauto. }
    destruct He as [msg ->]. exists msg.
    unfold simulate_http_request, bind, io, lift. simpl. by rewrite Hv.
Qed.

(** X5. When [random.random()] draws a number of [0, 1], the response time
    of the executor lies between 0.1 and 2.0 seconds, below the threshold of
    3.0 seconds of [run_performance_test]. *)
Theorem response_time_bounds (m : gmap string string) (s : state tester) :
  (0 <= e_random (world s) (e_tick (world s)) <= 1)%Q ->
  exists r s',
    simulate_http_request (Spec.payload_of m) s = (Ok r, s') /\
    (1 # 10 <= response_time r <= 2)%Q /\
    (response_time r < 3)%Q.
Proof.
  intros Hx.
  assert (Hrt : (1 # 10 <= fst (random_uniform (1 # 10) 2 (world s)) <= 2)%Q /\
                (fst (random_uniform (1 # 10) 2 (world s)) < 3)%Q).
  { unfold random_uniform. simpl. lra. }
  destruct (Spec.first_match Spec.rules m) as [msg|] eqn:Hfm.
  - eexists _, _. split.
    + apply (simulate_http_request_rejected _ msg).
      * rewrite is_valid_data_rules, Hfm. reflexivity.
      * rewrite get_error_message_rules, Hfm. reflexivity.
    + exact Hrt.
  - eexists _, _. split.
    + apply simulate_http_request_accepted.
      rewrite is_valid_data_rules, Hfm. reflexivity.
    + exact Hrt.
Qed.

(** The world that draws 0, as a witness of [response_time_bounds]. *)
Lemma response_time_bounds_world0 :
  exists r s',
    simulate_http_request (Spec.payload_of Examples.valid_user) Examples.simulated0
      = (Ok r, s') /\
    (1 # 10 <= response_time r <= 2)%Q /\
    (response_time r < 3)%Q.
Proof.
  apply (response_time_bounds Examples.valid_user Examples.simulated0).
  vm_compute. split; discriminate.
Defined.

End ValidationFrame.

(** ** Further properties of the reports *)

Section ReportArithmetic.

Local Open Scope list_scope.

Lemma count_if_le {A} (p : A -> bool) (l : list A) : (count_if p l <= length l)%nat.
Proof. unfold count_if. apply length_filter. Qed.

Lemma count_if_full {A} (p : A -> bool) (l : list A) :
  count_if p l = length l -> Forall (fun a => p a = true) l.
Proof.
  induction l as [|a l IH]; [constructor|].
  unfold count_if in *. rewrite filter_cons.
  pose proof (length_filter (fun a => p a = true) l) as Hle.
  destruct (decide (p a = true)) as [E|E]; simpl; intros H.
  - constructor; [exact E | apply IH; lia].
  - lia.
Qed.

Lemma count_if_none {A} (p : A -> bool) (l : list A) :
  count_if p l = 0%nat <-> Forall (fun a => p a = false) l.
Proof.
  unfold count_if. induction l as [|a l IH]; [split; [constructor | reflexivity]|].
  rewrite filter_cons.
  destruct (decide (p a = true)) as [E|E]; simpl.
  - split; [discriminate|]. intros H. inversion H; congruence.
  - rewrite IH. split.
    + intros H. constructor; [by destruct (p a) | exact H].
    + intros H. by inversion H.
Qed.

(** The pass rate as a number: between 0 and 100, 100 exactly when every
    test passed, 0 exactly when none did. *)
Lemma pass_rate_value (p t : nat) :
  (p <= t)%nat -> (0 < t)%nat ->
  let q := (Q_of_nat p / Q_of_nat t * 100)%Q in
  (0 <= q <= 100)%Q /\ ((q == 100)%Q <-> p = t) /\ ((q == 0)%Q <-> p = 0%nat).
Proof.
  intros Hle Hpos q. subst q.
  destruct t as [|t]; [lia|].
  unfold Q_of_nat, Qdiv, Qmult, Qinv, Qle, Qeq. simpl.
  rewrite !Pos.mul_1_r, !Z.mul_1_r.
  split; [|split]; nia.
Qed.

Lemma pass_rate_facts (p t : nat) :
  (p <= t)%nat ->
  let q := if (0 <? t)%nat then (Q_of_nat p / Q_of_nat t * 100)%Q else 0%Q in
  (0 <= q <= 100)%Q /\
  ((q == 100)%Q <-> (0 < t)%nat /\ p = t) /\
  ((q == 0)%Q <-> p = 0%nat).
Proof.
  intros Hle q. subst q. destruct (Nat.ltb_spec 0 t) as [Hpos|Hz].
  - destruct (pass_rate_value p t Hle Hpos) as (Hb & H100 & H0).
    split; [exact Hb|]. split; [|exact H0]. rewrite H100. intuition.
  - split; [split; discriminate|]. split.
    + split; [discriminate | lia].
    + split; [lia | reflexivity].
Qed.

(** X6. The report of the simulated tester, over any log: it is always
    returned and leaves the tester as it is; passed and failed add up to the
    total; the pass rate lies between 0 and 100, is 100 exactly when the log
    is not empty and every result passed, and is 0 exactly when no result
    passed. *)
Theorem report_arithmetic (s : state Simulated.tester) :
  exists rep,
    Simulated.generate_test_report s = (Ok rep, mk_state (self s) (advance (world s))) /\
    let sm := Simulated.r_summary rep in
    let log := Simulated.test_results (self s) in
    Simulated.s_total_tests sm = length log /\
    Simulated.s_passed sm = count_if Simulated.passed log /\
    (Z.of_nat (Simulated.s_passed sm) + Simulated.s_failed sm
       = Z.of_nat (Simulated.s_total_tests sm))%Z /\
    (0 <= Simulated.s_failed sm)%Z /\
    (0 <= Simulated.s_pass_rate sm <= 100)%Q /\
    ((Simulated.s_pass_rate sm == 100)%Q <->
       log <> [] /\ Forall (fun r => Simulated.passed r = true) log) /\
    ((Simulated.s_pass_rate sm == 0)%Q <->
       Forall (fun r => Simulated.passed r = false) log).
Proof.
  eexists. split; [apply generate_test_report_value|].
  cbn [Simulated.r_summary Simulated.s_total_tests Simulated.s_passed
       Simulated.s_failed Simulated.s_pass_rate]. cbv zeta.
  generalize (Simulated.test_results (self s)). intros log.
  pose proof (count_if_le Simulated.passed log) as Hle.
  destruct (pass_rate_facts _ _ Hle) as (Hb & H100 & H0).
  split; [reflexivity|]. split; [reflexivity|]. split; [lia|]. split; [lia|].
  split; [exact Hb|]. split.
  - rewrite H100. split.
    + intros [Hpos Hall].
      split; [destruct log; [simpl in Hpos; lia | discriminate] | by apply count_if_full].
    + intros [Hne Hall]. split; [destruct log; [done | simpl; lia]|].
      by apply count_if_all.
  - rewrite H0. apply count_if_none.
Qed.

Section MinMax.

Context {A : Type} (key : A -> Q).





End MinMax.




End ReportArithmetic.

(** ** Ordered dicts and the breakdown of the standalone runner *)

Section OrderedDict.

Context {V : Type}.
Implicit Types (d : list (string * V)) (k : string).

Lemma od_mem_get k d :
  od_mem k d = match od_get k d with Some _ => true | None => false end.
Proof.
  induction d as [|[k' v'] d IH]; simpl; [reflexivity|].
  destruct (String.eqb k k'); [reflexivity | exact IH].
Qed.

Lemma od_get_set_eq k (v : V) d : od_get k (od_set k v d) = Some v.
Proof.
  induction d as [|[k' v'] d IH]; simpl.
  - by rewrite String.eqb_refl.
  - destruct (String.eqb k k') eqn:E; simpl; rewrite E; [reflexivity | exact IH].
Qed.

Lemma od_get_set_ne k k' (v : V) d : k <> k' -> od_get k' (od_set k v d) = od_get k' d.
Proof.
  intros Hne. induction d as [|[k0 v0] d IH]; simpl.
  - destruct (String.eqb_spec k' k); [congruence | reflexivity].
  - destruct (String.eqb_spec k k0) as [->|]; simpl.
    + destruct (String.eqb_spec k' k0); [congruence | reflexivity].
    + by rewrite IH.
Qed.

Lemma od_get_alter_eq (f : V -> V) k d : od_get k (od_alter f k d) = f <$> od_get k d.
Proof.
  induction d as [|[k' v'] d IH]; simpl; [reflexivity|].
  destruct (String.eqb k k') eqn:E; simpl; rewrite E; [reflexivity | exact IH].
Qed.

Lemma od_get_alter_ne (f : V -> V) k k' d :
  k <> k' -> od_get k' (od_alter f k d) = od_get k' d.
Proof.
  intros Hne. induction d as [|[k0 v0] d IH]; simpl; [reflexivity|].
  destruct (String.eqb_spec k k0) as [->|]; simpl.
  - destruct (String.eqb_spec k' k0); [congruence | reflexivity].
  - by rewrite IH.
Qed.

Lemma od_keys_alter (f : V -> V) k d : map fst (od_alter f k d) = map fst d.
Proof.
  induction d as [|[k' v'] d IH]; simpl; [reflexivity|].
  destruct (String.eqb k k'); simpl; [reflexivity | by rewrite IH].
Qed.

Lemma od_keys_set k (v : V) d :
  map fst (od_set k v d) = if od_mem k d then map fst d else (map fst d ++ [k])%list.
Proof.
  induction d as [|[k' v'] d IH]; simpl; [reflexivity|].
  destruct (String.eqb k k'); simpl; [reflexivity|].
  rewrite IH. by destruct (od_mem k d).
Qed.

Lemma od_mem_keys k d : od_mem k d = existsb (String.eqb k) (map fst d).
Proof.
  induction d as [|[k' v'] d IH]; simpl; [reflexivity | by rewrite IH].
Qed.

End OrderedDict.

Section Breakdown.

Import Standalone.
Local Open Scope list_scope.

Implicit Types (k : string).

Lemma tally_get_eq k (p : bool) (d : list (string * stats)) :
  od_get k (tally k p d) =
  let st := default (mk_stats 0 0) (od_get k d) in
  Some (mk_stats (st_total st + 1) (if p then st_passed st + 1 else st_passed st)).
Proof.
  unfold tally. rewrite od_mem_get.
  destruct (od_get k d) as [st|] eqn:Hget; cbn [negb default].
  - destruct p; rewrite ?od_get_alter_eq, Hget; reflexivity.
  - destruct p; rewrite ?od_get_alter_eq, od_get_set_eq; reflexivity.
Qed.

Lemma tally_get_ne k k' (p : bool) (d : list (string * stats)) : k <> k' -> od_get k' (tally k p d) = od_get k' d.
Proof.
  intros Hne. unfold tally.
  destruct p; rewrite ?od_get_alter_ne by exact Hne;
    destruct (negb (od_mem k d)); rewrite ?od_get_set_ne by exact Hne; reflexivity.
Qed.

Lemma tally_keys k (p : bool) (d : list (string * stats)) :
  map fst (tally k p d) = if od_mem k d then map fst d else map fst d ++ [k].
Proof.
  unfold tally. destruct p; rewrite !od_keys_alter;
    destruct (od_mem k d) eqn:E; cbn [negb]; rewrite ?od_keys_set, ?E; reflexivity.
Qed.

Lemma breakdown_split (results : list result) (d1 d2 : list (string * stats)) :
  fold_left
    (fun d result =>
       (tally (category result) (passed result) (fst d),
        tally (priority result) (passed result) (snd d)))
    results (d1, d2)
  = (tally_all category results d1, tally_all priority results d2).
Proof.
  revert d1 d2. induction results as [|r results IH]; intros d1 d2; [reflexivity|].
  simpl. apply IH.
Qed.

Lemma tally_all_get (key : result -> string) (results : list result) (d : list (string * stats)) k :
  od_get k (tally_all key results d) =
  match od_get k d with
  | Some st =>
      Some (mk_stats (st_total st + Spec.group_total key k results)
                     (st_passed st + Spec.group_passed key k results))
  | None => Spec.group_stats key k results
  end.
Proof.
  revert d. induction results as [|r results IH]; intros d.
  - cbn. destruct (od_get k d) as [[t p]|]; [|reflexivity].
    simpl. by rewrite !Nat.add_0_r.
  - cbn [tally_all fold_left]. fold (tally_all key results (tally (key r) (passed r) d)).
    rewrite IH. unfold Spec.group_stats, Spec.group_total, Spec.group_passed.
    cbn [List.filter].
    destruct (String.eqb_spec (key r) k) as [<-|Hne].
    + rewrite tally_get_eq. cbn [andb length].
      destruct (od_get (key r) d) as [[t p]|]; destruct (passed r);
        simpl; f_equal; f_equal; lia.
    + rewrite tally_get_ne by exact Hne. cbn [andb]. reflexivity.
Qed.

Lemma first_seen_filter (keys : list string) (f : string -> bool) (k : string) :
  f k = false ->
  List.filter f (List.filter (fun k' => negb (String.eqb k' k)) keys) = List.filter f keys.
Proof.
  intros Hk. induction keys as [|k0 keys IH]; simpl; [reflexivity|].
  destruct (String.eqb_spec k0 k) as [->|]; simpl.
  - by rewrite Hk.
  - destruct (f k0); by rewrite IH.
Qed.

Lemma filter_all {A} (l : list A) : List.filter (fun _ => true) l = l.
Proof. induction l; simpl; congruence. Qed.

Lemma filter_filter_andb {A} (f g : A -> bool) (l : list A) :
  List.filter f (List.filter g l) = List.filter (fun x => g x && f x) l.
Proof.
  induction l as [|a l IH]; simpl; [reflexivity|].
  destruct (g a); simpl; [destruct (f a)|]; by rewrite IH.
Qed.

Lemma tally_all_keys (key : result -> string) (results : list result) (d : list (string * stats)) :
  map fst (tally_all key results d) =
  map fst d ++
  List.filter (fun k => negb (existsb (String.eqb k) (map fst d)))
    (Spec.first_seen (map key results)).
Proof.
  revert d. induction results as [|r results IH]; intros d.
  - simpl. by rewrite app_nil_r.
  - cbn [tally_all fold_left]. fold (tally_all key results (tally (key r) (passed r) d)).
    rewrite IH, tally_keys, od_mem_keys. cbn [map Spec.first_seen List.filter].
    destruct (existsb (String.eqb (key r)) (map fst d)) eqn:E; cbn [negb].
    + f_equal. symmetry. apply first_seen_filter. by rewrite E.
    + rewrite <- app_assoc. cbn [app]. f_equal. f_equal.
      rewrite filter_filter_andb.
      apply List.filter_ext. intros k.
      rewrite existsb_app. cbn [existsb]. rewrite orb_false_r, negb_orb.
      by rewrite andb_comm.
Qed.

Section Sums.

Variable g : stats -> nat.

Lemma sum_by_app (d1 d2 : list (string * stats)) :
  sum_by g (d1 ++ d2) = sum_by g d1 + sum_by g d2.
Proof. induction d1 as [|kv d1 IH]; simpl; [reflexivity | rewrite IH; lia]. Qed.

Lemma sum_by_alter_same (f : stats -> stats) k (d : list (string * stats)) :
  (forall st, g (f st) = g st) -> sum_by g (od_alter f k d) = sum_by g d.
Proof.
  intros Hf. induction d as [|[k' st] d IH]; simpl; [reflexivity|].
  destruct (String.eqb k k'); simpl; [by rewrite Hf | by rewrite IH].
Qed.

Lemma sum_by_alter_incr (f : stats -> stats) k (d : list (string * stats)) :
  od_mem k d = true -> (forall st, g (f st) = S (g st)) ->
  sum_by g (od_alter f k d) = S (sum_by g d).
Proof.
  intros Hmem Hf. induction d as [|[k' st] d IH]; simpl in *; [discriminate|].
  destruct (String.eqb k k'); simpl in *; [by rewrite Hf|].
  rewrite IH by exact Hmem. lia.
Qed.

End Sums.

Lemma od_mem_set k (v : stats) (d : list (string * stats)) : od_mem k (od_set k v d) = true.
Proof. by rewrite od_mem_get, od_get_set_eq. Qed.

Lemma od_mem_alter (f : stats -> stats) k k' (d : list (string * stats)) :
  od_mem k' (od_alter f k d) = od_mem k' d.
Proof. by rewrite !od_mem_keys, od_keys_alter. Qed.

Lemma tally_sums k (p : bool) (d : list (string * stats)) :
  Spec.sum_totals (tally k p d) = S (Spec.sum_totals d) /\
  Spec.sum_passed (tally k p d) = (if p then 1 else 0) + Spec.sum_passed d.
Proof.
  change Spec.sum_totals with (sum_by st_total).
  change Spec.sum_passed with (sum_by st_passed).
  unfold tally.
  set (d0 := if negb (od_mem k d) then od_set k (mk_stats 0 0) d else d).
  assert (Hmem : od_mem k d0 = true).
  { unfold d0. destruct (od_mem k d) eqn:E; cbn [negb]; [exact E | apply od_mem_set]. }
  assert (Ht : sum_by st_total d0 = sum_by st_total d /\
               sum_by st_passed d0 = sum_by st_passed d).
  { unfold d0. destruct (od_mem k d) eqn:E; cbn [negb]; [by split|].
    rewrite od_set_absent by exact E. rewrite !sum_by_app. simpl. lia. }
  destruct Ht as [Ht Hp].
  destruct p.
  - split.
    + rewrite sum_by_alter_same by reflexivity.
      rewrite sum_by_alter_incr; [lia | exact Hmem | intros st; simpl; lia].
    + rewrite sum_by_alter_incr;
        [ | by rewrite od_mem_alter | intros st; simpl; lia].
      rewrite sum_by_alter_same by reflexivity. lia.
  - split.
    + rewrite sum_by_alter_incr; [lia | exact Hmem | intros st; simpl; lia].
    + rewrite sum_by_alter_same by reflexivity. lia.
Qed.

Lemma count_if_cons {A} (p : A -> bool) (a : A) (l : list A) :
  count_if p (a :: l) = (if p a then 1 else 0) + count_if p l.
Proof.
  unfold count_if. rewrite filter_cons.
  destruct (decide (p a = true)) as [E|E]; destruct (p a); simpl; congruence.
Qed.

Lemma tally_all_sums (key : result -> string) (results : list result)
    (d : list (string * stats)) :
  Spec.sum_totals (tally_all key results d) = Spec.sum_totals d + length results /\
  Spec.sum_passed (tally_all key results d) = Spec.sum_passed d + count_if passed results.
Proof.
  revert d. induction results as [|r results IH]; intros d.
  - simpl. unfold count_if. simpl. lia.
  - cbn [tally_all fold_left]. fold (tally_all key results (tally (key r) (passed r) d)).
    destruct (IH (tally (key r) (passed r) d)) as [-> ->].
    destruct (tally_sums (key r) (passed r) d) as [-> ->].
    rewrite count_if_cons. simpl. destruct (passed r); lia.
Qed.

(** X8. What the breakdown of [generate_summary_report] holds under a
    key: the number of results of that category (priority) and the number
    of those that passed, and no entry at all when no result has the key. *)
Theorem breakdown_groups (results : list result) (k : string) :
  od_get k (fst (breakdown results)) = Spec.group_stats category k results /\
  od_get k (snd (breakdown results)) = Spec.group_stats priority k results.
Proof.
  unfold breakdown. rewrite breakdown_split. cbn [fst snd].
  by rewrite !tally_all_get.
Qed.

Lemma first_seen_NoDup (keys : list string) : List.NoDup (Spec.first_seen keys).
Proof.
  induction keys as [|k keys IH]; cbn [Spec.first_seen]; constructor.
  - intros Hin. apply List.filter_In in Hin as [_ Hk].
    by rewrite String.eqb_refl in Hk.
  - by apply List.NoDup_filter.
Qed.

(** X9. The keys of the two breakdowns are the categories (priorities) of
    the log in the order in which they first appear, each once. *)
Theorem breakdown_order (results : list result) :
  map fst (fst (breakdown results)) = Spec.first_seen (map category results) /\
  map fst (snd (breakdown results)) = Spec.first_seen (map priority results) /\
  List.NoDup (map fst (fst (breakdown results))) /\
  List.NoDup (map fst (snd (breakdown results))).
Proof.
  assert (H : map fst (fst (breakdown results)) = Spec.first_seen (map category results) /\
              map fst (snd (breakdown results)) = Spec.first_seen (map priority results)).
  { unfold breakdown. rewrite breakdown_split. cbn [fst snd].
    rewrite !tally_all_keys. cbn [map app existsb negb].
    split; apply filter_all. }
  destruct H as [H1 H2]. rewrite H1, H2.
  repeat split; apply first_seen_NoDup.
Qed.

(** X10. The totals of the groups add up to the number of results and
    their passed counts to the number of passed results, in both
    breakdowns. *)
Theorem breakdown_sums (results : list result) :
  Spec.sum_totals (fst (breakdown results)) = length results /\
  Spec.sum_passed (fst (breakdown results)) = count_if passed results /\
  Spec.sum_totals (snd (breakdown results)) = length results /\
  Spec.sum_passed (snd (breakdown results)) = count_if passed results.
Proof.
  unfold breakdown. rewrite breakdown_split. cbn [fst snd].
  destruct (tally_all_sums category results []) as [-> ->].
  destruct (tally_all_sums priority results []) as [-> ->].
  by repeat split.
Qed.

End Breakdown.

(** ** The summary and the full run of the standalone runner *)

Section StandaloneSummary.

Import Standalone.
Local Open Scope list_scope.

(** The summary of a log that is not empty, in full. *)
Lemma generate_summary_report_returns (s : state runner) (r : result) (rest : list result) :
  test_results (self s) = r :: rest ->
  let log := r :: rest in
  generate_summary_report s =
  (Ok (mk_report
         (mk_summary (length log) (count_if passed log)
            (Z.of_nat (length log) - Z.of_nat (count_if passed log))
            (if (0 <? length log)%nat
             then (Q_of_nat (count_if passed log) / Q_of_nat (length log) * 100)%Q
             else 0%Q)
            (py_sum (map execution_time log))
            (py_sum (map execution_time log) / Q_of_nat (length (map execution_time log))))
         (fst (breakdown log)) (snd (breakdown log)) log),
   s).
Proof.
  intros Hlog log.
  unfold generate_summary_report, bind, get_self, lift, ret. rewrite Hlog.
  rewrite pass_rate_of_total. cbn [map]. unfold py_truediv at 1.
  rewrite Q_of_nat_nonzero by (simpl; lia).
  destruct (breakdown_counted (r :: rest)) as [Hc Hp].
  destruct (group_rates_total _ Hc) as [qc ->].
  destruct (group_rates_total _ Hp) as [qp ->].
  reflexivity.
Qed.


Lemma run_tests_fields (tests : list test_call) (s : state runner) :
  exists s' new,
    run_tests tests s = (Ok tt, s') /\
    test_results (self s') = test_results (self s) ++ new /\
    map result_fields new = map call_fields tests.
Proof.
  revert s. induction tests as [|t tests IH]; intros s.
  - exists s, []. rewrite app_nil_r. by repeat split.
  - cbn [run_tests]. unfold bind at 1. rewrite execute_test_value.
    match goal with
    | |- context [run_tests tests ?s1] =>
        destruct (IH s1) as (s' & new & Hrun & Hlog & Hf)
    end.
    rewrite Hrun. eexists s', (_ :: new). split; [reflexivity|].
    split; [rewrite Hlog; simpl; rewrite <- app_assoc; reflexivity|].
    cbn [map]. by rewrite Hf.
Qed.

Lemma run_tests_app (a b : list test_call) (s : state runner) :
  run_tests (a ++ b) s = bind (run_tests a) (fun _ => run_tests b) s.
Proof.
  revert s. induction a as [|t a IH]; intros s; [reflexivity|].
  cbn [app run_tests]. unfold bind in *.
  destruct (execute_test _ _ _ _ s) as [[r|e] s1]; [apply IH | reflexivity].
Qed.

Lemma breakdown_fields (l l' : list result) :
  map result_fields l = map result_fields l' -> breakdown l = breakdown l'.
Proof.
  unfold breakdown. generalize (@nil (string * stats), @nil (string * stats)).
  revert l'. induction l as [|r l IH]; intros [|r' l'] d H; try discriminate; [reflexivity|].
  cbn [map] in H. injection H as _ _ Hc Hp Hpa Hl.
  cbn [fold_left]. rewrite Hc, Hp, Hpa. by apply IH.
Qed.

Lemma fields_passed (l : list result) (ts : list test_call) :
  map result_fields l = map call_fields ts ->
  Forall (fun r => passed r = true) l /\ length l = length ts /\
  map test_id l = map call_id ts.
Proof.
  revert ts. induction l as [|r l IH]; intros [|t ts] H; try discriminate.
  - by repeat split.
  - cbn [map] in H. injection H as Hid _ _ _ Hp Hl.
    destruct (IH ts Hl) as (Hall & Hlen & Hids).
    split; [by constructor|]. split; [simpl; by rewrite Hlen|].
    cbn [map]. by rewrite Hid, Hids.
Qed.

Ltac run_group :=
  match goal with
  | |- context [run_tests ?g ?s] =>
      let s' := fresh "s" in
      let n := fresh "n" in
      let L := fresh "L" in
      let F := fresh "F" in
      destruct (run_tests_fields g s) as (s' & n & -> & L & F); cbv iota beta
  end.

(** X12. [run_all_tests] on a fresh runner, whatever the clock reads:
    it returns a summary of 30 results, in the order of the eight groups
    (Security before Boundary), all passed, with pass rate 100, and the
    breakdowns by category and by priority below. *)
Theorem run_all_tests_report (w : env) :
  exists rep s',
    run_all_tests (mk_state __init__ w) = (Ok rep, s') /\
    r_test_results rep = test_results (self s') /\
    map test_id (r_test_results rep) = map call_id catalog /\
    s_total_tests (r_summary rep) = 30%nat /\
    s_passed (r_summary rep) = 30%nat /\
    s_failed (r_summary rep) = 0%Z /\
    (s_pass_rate (r_summary rep) == 100)%Q /\
    r_categories rep =
      [ ("Positive", mk_stats 3 3); ("Negative", mk_stats 8 8);
        ("Security", mk_stats 4 4); ("Boundary", mk_stats 3 3);
        ("UI_UX", mk_stats 4 4); ("Performance", mk_stats 2 2);
        ("Accessibility", mk_stats 3 3); ("Integration", mk_stats 3 3) ] /\
    r_priorities rep =
      [ ("High", mk_stats 15 15); ("Medium", mk_stats 11 11); ("Low", mk_stats 4 4) ].
Proof.
  unfold run_all_tests, run_positive_tests, run_negative_tests, run_security_tests,
    run_boundary_tests, run_ui_ux_tests, run_performance_tests,
    run_accessibility_tests, run_integration_tests.
  unfold bind, io, time_time, ret. cbn [world self].
  do 8 run_group.
  cbn [self test_results __init__ app] in L.
  assert (Hlog : test_results (self s6) = n ++ n0 ++ n1 ++ n2 ++ n3 ++ n4 ++ n5 ++ n6).
  { rewrite L6, L5, L4, L3, L2, L1, L0, L. by rewrite <- !app_assoc. }
  assert (Hf : map result_fields (test_results (self s6)) = map call_fields catalog).
  { rewrite Hlog. unfold catalog. rewrite !map_app. congruence. }
  destruct (fields_passed _ _ Hf) as (Hall & Hlen & Hids).
  destruct (test_results (self s6)) as [|r rest] eqn:Hs6; [discriminate|].
  rewrite (generate_summary_report_returns _ r rest) by exact Hs6.
  eexists _, _. split; [reflexivity|].
  cbn [r_summary s_total_tests s_passed s_failed s_pass_rate r_categories
       r_priorities r_test_results self].
  rewrite (count_if_all passed _ Hall), Hlen.
  split; [by rewrite Hs6|]. split; [exact Hids|].
  split; [reflexivity|]. split; [reflexivity|]. split; [reflexivity|].
  split; [reflexivity|].
  rewrite (breakdown_fields (r :: rest) (map stand_in catalog)) by (rewrite Hf; reflexivity).
  split; vm_compute; reflexivity.
Qed.

End StandaloneSummary.

(** ** The full suite of the simulated tester *)

Section Characters.

Lemma append_cons (c : ascii) (a b : string) : String c a ++ b = String c (a ++ b).
Proof. reflexivity. Qed.

Lemma has_char_app (c : ascii) (a b : string) :
  has_char c (a ++ b) = has_char c a || has_char c b.
Proof.
  induction a as [|d a IH]; [reflexivity|].
  rewrite append_cons. cbn [has_char]. by rewrite IH, orb_assoc.
Qed.

Lemma length_app_string (a b : string) :
  String.length (a ++ b) = (String.length a + String.length b)%nat.
Proof.
  induction a as [|d a IH]; [reflexivity|].
  rewrite append_cons. cbn [String.length]. by rewrite IH.
Qed.

Lemma contains_app_r (sub a b : string) :
  contains sub b = true -> contains sub (a ++ b) = true.
Proof.
  intros H. induction a as [|d a IH]; [exact H|].
  rewrite append_cons. cbn [contains]. rewrite IH. apply orb_true_r.
Qed.

Lemma contains_has_char (c : ascii) (sub s : string) :
  contains (String c sub) s = true -> has_char c s = true.
Proof.
  induction s as [|d s IH]; cbn [contains has_char].
  - discriminate.
  - intros H. apply orb_true_iff in H as [H|H].
    + simpl in H. destruct (ascii_dec c d) as [->|]; [|discriminate].
      by rewrite Ascii.eqb_refl.
    + rewrite (IH H). apply orb_true_r.
Qed.

Lemma has_char_uint (c : ascii) (d : Decimal.uint) :
  has_char c "0123456789" = false ->
  has_char c (NilEmpty.string_of_uint d) = false.
Proof.
  intros H. cbn [has_char] in H.
  repeat (apply orb_false_iff in H as [? H]).
  induction d; cbn [NilEmpty.string_of_uint has_char]; rewrite ?IHd;
    try reflexivity; by rewrite orb_false_r.
Qed.

Lemma has_char_str_int (c : ascii) (z : Z) :
  has_char c "-0123456789" = false -> has_char c (py_str_int z) = false.
Proof.
  intros H. cbn [has_char] in H. apply orb_false_iff in H as [Hm H].
  pose proof (fun d => has_char_uint c d H) as Hd.
  assert (Hz : forall d, has_char c (NilZero.string_of_uint d) = false).
  { intros d. unfold NilZero.string_of_uint.
    destruct d; try apply Hd.
    cbn [has_char] in *. apply orb_false_iff in H as [-> _]. reflexivity. }
  unfold py_str_int. destruct z; cbn [Z.to_int NilZero.string_of_int].
  - apply Hz.
  - apply Hz.
  - cbn [has_char]. by rewrite Hm, Hz.
Qed.

End Characters.

Section SimulatedSuite.

Import Simulated.
Local Open Scope list_scope.

(** A payload whose three fields are strings that meet every rule is accepted. *)
Lemma is_valid_data_accepts (data : gmap string pyval) (u e p : string) :
  data !! "username" = Some (PyStr u) ->
  data !! "email" = Some (PyStr e) ->
  data !! "password" = Some (PyStr p) ->
  (3 <= String.length u)%nat ->
  contains "@" e = true ->
  (8 <= String.length p)%nat ->
  has_char "D" u = false ->
  has_char "<" u = false ->
  _is_valid_data data = Ok true.
Proof.
  intros Hu He Hp Hlu Hat Hlp HD Hlt.
  assert (Hget : forall k v dflt, data !! k = Some v ->
            dict_get data k = v /\ dict_get_or data k dflt = v).
  { intros k v dflt H. unfold dict_get, dict_get_or. by rewrite H. }
  unfold _is_valid_data.
  rewrite !(proj1 (Hget _ _ PyNone Hu)), !(proj2 (Hget _ _ (PyStr "") Hu)).
  rewrite !(proj1 (Hget _ _ PyNone He)), !(proj2 (Hget _ _ (PyStr "") He)).
  rewrite !(proj1 (Hget _ _ PyNone Hp)), !(proj2 (Hget _ _ (PyStr "") Hp)).
  unfold truthy, py_len, py_in.
  assert (Hne : forall x n, (S n <= String.length x)%nat -> String.eqb x "" = false).
  { intros [|c x] n H; [simpl in H; lia | reflexivity]. }
  rewrite (Hne u 2) by exact Hlu. rewrite (Hne p 7) by exact Hlp.
  rewrite (Hne e 0) by (apply contains_length in Hat; exact Hat).
  cbn [negb py_or res_bind].
  destruct (Nat.ltb_spec (String.length u) 3); [lia|].
  destruct (Nat.ltb_spec (String.length p) 8); [lia|].
  rewrite Hat. cbn [negb].
  destruct (contains "DROP TABLE" u) eqn:E1;
    [apply contains_has_char in E1; congruence|].
  destruct (contains "<script>" u) eqn:E2;
    [apply contains_has_char in E2; congruence|].
  reflexivity.
Qed.

Lemma run_test_case_accepts (id d : string) (data : gmap string pyval) (s : state tester) :
  _is_valid_data data = Ok true ->
  exists r s',
    run_test_case id d data "success" s = (Ok r, s') /\
    self s' = mk_tester (base_url (self s)) (test_results (self s) ++ [r]) /\
    test_id r = id /\ passed r = true /\
    response_time (actual_response r)
      = fst (random_uniform (1 # 10) 2 (advance (world s))).
Proof.
  intros Hv. eexists _, _. split.
  - eapply run_test_case_answer.
    + by apply simulate_http_request_accepted.
    + reflexivity.
  - repeat split.
Qed.

Lemma run_test_case_rejects (id d : string) (data : gmap string pyval)
    (expected msg : string) (s : state tester) :
  _is_valid_data data = Ok false ->
  _get_error_message data = Ok msg ->
  String.eqb expected "success" = false ->
  contains expected msg = true ->
  exists r s',
    run_test_case id d data expected s = (Ok r, s') /\
    self s' = mk_tester (base_url (self s)) (test_results (self s) ++ [r]) /\
    test_id r = id /\ passed r = true.
Proof.
  intros Hv Hm Hne Hc. eexists _, _. split.
  - eapply (run_test_case_answer _ _ _ _ _ _ _ true).
    + by apply simulate_http_request_rejected.
    + unfold classify, dict_get_or. rewrite Hne. cbn [success negb body].
      rewrite lookup_singleton_eq. simpl. by rewrite Hc.
  - repeat split.
Qed.

Lemma passes_all_ret {A} (a : A) : passes_all [] anything (ret a).
Proof.
  intros s. exists a, s, []. rewrite app_nil_r.
  split; [reflexivity|]. split; [by destruct s as [[] ?]|]. by repeat split.
Qed.

Lemma passes_all_seq {A B} (ids1 ids2 : list string)
    (Q1 : A -> tester -> Prop) (Q2 : B -> tester -> Prop)
    (c : M tester A) (k : A -> M tester B) :
  passes_all ids1 Q1 c -> (forall a, passes_all ids2 Q2 (k a)) ->
  passes_all (ids1 ++ ids2) Q2 (bind c k).
Proof.
  intros Hc Hk s. unfold bind.
  destruct (Hc s) as (a & s1 & n1 & -> & Hl1 & Hi1 & Hp1 & _).
  destruct (Hk a s1) as (b & s2 & n2 & -> & Hl2 & Hi2 & Hp2 & HQ).
  exists b, s2, (n1 ++ n2). split; [reflexivity|].
  split; [rewrite Hl2, Hl1; simpl; by rewrite app_assoc|].
  split; [by rewrite map_app, Hi1, Hi2|]. split; [by apply Forall_app | exact HQ].
Qed.

Lemma passes_all_bind_ret {A} (ids : list string) (Q : A -> tester -> Prop)
    (c : M tester A) :
  passes_all ids Q c -> passes_all ids Q (bind c (fun a => ret a)).
Proof.
  intros Hc s. unfold bind, ret.
  destruct (Hc s) as (a & s1 & n1 & -> & H). by exists a, s1, n1.
Qed.

Lemma passes_all_io {A} (f : env -> A * env) : passes_all [] anything (io f).
Proof.
  intros s. unfold io. destruct (f (world s)) as [a w'].
  eexists a, _, []. split; [reflexivity|]. rewrite app_nil_r.
  split; [by destruct s as [[] ?]|]. by repeat split.
Qed.

Lemma passes_all_int_time : passes_all [] anything (@int_time tester).
Proof.
  unfold int_time. apply (passes_all_seq [] [] anything); [apply passes_all_io|].
  intros t. apply passes_all_ret.
Qed.

Lemma passes_all_accepts (id d : string) (data : gmap string pyval) :
  _is_valid_data data = Ok true ->
  passes_all [id] anything (run_test_case id d data "success").
Proof.
  intros Hv s.
  destruct (run_test_case_accepts id d data s Hv) as (r & s' & Hrun & Hl & Hid & Hp & _).
  exists r, s', [r]. split; [exact Hrun|]. split; [exact Hl|].
  split; [simpl; by rewrite Hid|]. split; [by constructor | exact I].
Qed.

Lemma passes_all_rejects (id d : string) (data : gmap string pyval) (expected msg : string) :
  _is_valid_data data = Ok false ->
  _get_error_message data = Ok msg ->
  String.eqb expected "success" = false ->
  contains expected msg = true ->
  passes_all [id] anything (run_test_case id d data expected).
Proof.
  intros Hv Hm Hne Hc s.
  destruct (run_test_case_rejects id d data expected msg s Hv Hm Hne Hc)
    as (r & s' & Hrun & Hl & Hid & Hp).
  exists r, s', [r]. split; [exact Hrun|]. split; [exact Hl|].
  split; [simpl; by rewrite Hid|]. split; [by constructor | exact I].
Qed.

(** A payload with a generated user name and email is accepted whatever
    the clock reads. *)
Lemma generated_payload_accepted (data : gmap string pyval)
    (upre epre p : string) (t1 t2 : Z) :
  data !! "username" = Some (PyStr (upre ++ py_str_int t1)) ->
  data !! "email" = Some (PyStr (epre ++ py_str_int t2 ++ "@example.com")) ->
  data !! "password" = Some (PyStr p) ->
  (3 <= String.length upre)%nat ->
  (8 <= String.length p)%nat ->
  has_char "D" upre = false ->
  has_char "<" upre = false ->
  _is_valid_data data = Ok true.
Proof.
  intros Hu He Hp Hlu Hlp HD Hlt.
  eapply is_valid_data_accepts; eauto.
  - rewrite length_app_string. lia.
  - do 2 apply contains_app_r. reflexivity.
  - rewrite has_char_app, HD. by apply has_char_str_int.
  - rewrite has_char_app, Hlt. by apply has_char_str_int.
Qed.

Ltac lookup_literal :=
  repeat (rewrite lookup_insert_ne by discriminate);
  first [apply lookup_insert_eq | apply lookup_singleton_eq].

Ltac accepted upre epre p t1 t2 :=
  apply (generated_payload_accepted _ upre epre p t1 t2);
    [ lookup_literal | lookup_literal | lookup_literal
    | vm_compute; lia | vm_compute; lia | reflexivity | reflexivity ].

Ltac rejected :=
  eapply passes_all_rejects; vm_compute; reflexivity.

Ltac clock_then t :=
  apply (passes_all_seq [] _ anything _ int_time); [apply passes_all_int_time | intros t].

Lemma run_positive_tests_pass :
  passes_all ["REG_001"; "REG_002"; "REG_003"] anything run_positive_tests.
Proof.
  unfold run_positive_tests.
  clock_then t1. clock_then t2.
  apply (passes_all_seq ["REG_001"] _ anything);
    [apply passes_all_accepts; accepted "testuser_" "test_" "SecurePass123!" t1 t2 | intros _].
  clock_then t3. clock_then t4.
  apply (passes_all_seq ["REG_002"] _ anything);
    [apply passes_all_accepts; accepted "minuser_" "min_" "MinPass123!" t3 t4 | intros _].
  clock_then t5. clock_then t6.
  apply (passes_all_seq ["REG_003"] [] anything);
    [apply passes_all_accepts; accepted "complete_" "complete_" "CompletePass123!" t5 t6
    | intros _].
  apply passes_all_ret.
Qed.

Lemma run_negative_tests_pass :
  passes_all ["REG_004"; "REG_005"; "REG_006"; "REG_007"] anything run_negative_tests.
Proof.
  unfold run_negative_tests.
  apply (passes_all_seq ["REG_004"] _ anything); [rejected | intros _].
  apply (passes_all_seq ["REG_005"] _ anything); [rejected | intros _].
  apply (passes_all_seq ["REG_006"] _ anything); [rejected | intros _].
  apply (passes_all_seq ["REG_007"] [] anything); [rejected | intros _].
  apply passes_all_ret.
Qed.

Lemma run_security_tests_pass :
  passes_all ["REG_015"; "REG_016"] anything run_security_tests.
Proof.
  unfold run_security_tests.
  apply (passes_all_seq ["REG_015"] _ anything); [rejected | intros _].
  apply (passes_all_seq ["REG_016"] [] anything); [rejected | intros _].
  apply passes_all_ret.
Qed.

Lemma run_boundary_tests_pass :
  passes_all ["REG_012a"; "REG_013a"] anything run_boundary_tests.
Proof.
  unfold run_boundary_tests.
  apply (passes_all_seq ["REG_012a"] _ anything); [rejected | intros _].
  apply (passes_all_seq ["REG_013a"] [] anything); [rejected | intros _].
  apply passes_all_ret.
Qed.

Lemma run_performance_test_pass :
  passes_all ["REG_023"] anything run_performance_test.
Proof.
  unfold run_performance_test.
  apply (passes_all_seq [] _ anything _ (io time_time)); [apply passes_all_io | intros t0].
  clock_then t1. clock_then t2.
  apply (passes_all_seq ["REG_023"] [] anything);
    [apply passes_all_accepts; accepted "perfuser_" "perf_" "PerfPass123!" t1 t2
    | intros r].
  apply passes_all_ret.
Qed.

Lemma generate_test_report_reported : passes_all [] reported generate_test_report.
Proof.
  intros s. eexists _, _, []. split; [apply generate_test_report_value|].
  rewrite app_nil_r. split; [by destruct s as [[] ?]|].
  split; [reflexivity|]. split; [constructor|]. by repeat split.
Qed.

Lemma run_full_test_suite_passes : passes_all suite_ids reported run_full_test_suite.
Proof.
  unfold run_full_test_suite.
  apply (passes_all_seq [] _ anything _ (io time_time)); [apply passes_all_io | intros t0].
  apply (passes_all_seq ["REG_001"; "REG_002"; "REG_003"] _ anything);
    [apply run_positive_tests_pass | intros _].
  apply (passes_all_seq ["REG_004"; "REG_005"; "REG_006"; "REG_007"] _ anything);
    [apply run_negative_tests_pass | intros _].
  apply (passes_all_seq ["REG_015"; "REG_016"] _ anything);
    [apply run_security_tests_pass | intros _].
  apply (passes_all_seq ["REG_012a"; "REG_013a"] _ anything);
    [apply run_boundary_tests_pass | intros _].
  apply (passes_all_seq ["REG_023"] _ anything);
    [apply run_performance_test_pass | intros _].
  apply (passes_all_seq [] [] anything _ (io time_time)); [apply passes_all_io | intros t1].
  apply passes_all_bind_ret, generate_test_report_reported.
Qed.

(** X13. [run_full_test_suite], whatever the clock reads and the random
    numbers drawn: it returns, adds to the log the twelve cases of the
    suite in order, every one of them passed, and reports the log; on a
    fresh tester the report counts 12 tests, 12 passed, 0 failed and a pass
    rate of 100. *)
Theorem full_suite_passes :
  (forall s : state tester, exists rep s' new,
      run_full_test_suite s = (Ok rep, s') /\
      test_results (self s') = test_results (self s) ++ new /\
      r_test_results rep = test_results (self s) ++ new /\
      map test_id new = suite_ids /\
      Forall (fun r => passed r = true) new) /\
  (forall (url : string) (w : env), exists rep s',
      run_full_test_suite (mk_state (__init__ url) w) = (Ok rep, s') /\
      map test_id (r_test_results rep) = suite_ids /\
      s_total_tests (r_summary rep) = 12%nat /\
      s_passed (r_summary rep) = 12%nat /\
      s_failed (r_summary rep) = 0%Z /\
      (s_pass_rate (r_summary rep) == 100)%Q /\
      s_test_environment (r_summary rep) = url).
Proof.
  split.
  - intros s.
    destruct (run_full_test_suite_passes s)
      as (rep & s' & new & Hrun & Hl & Hids & Hall & Hrep & _).
    exists rep, s', new. rewrite Hrep, Hl. by repeat split.
  - intros url w.
    destruct (run_full_test_suite_passes (mk_state (__init__ url) w))
      as (rep & s' & new & Hrun & Hl & Hids & Hall & Hrep & Ht & Hp & Hf & Hr & He).
    rewrite Hl in *. cbn [self __init__ test_results base_url app] in *.
    assert (Hlen : length new = 12%nat).
    { rewrite <- (length_map test_id), Hids. reflexivity. }
    rewrite (count_if_all passed new Hall), Hlen in *.
    exists rep, s'. split; [exact Hrun|]. rewrite Hrep.
    split; [exact Hids|]. split; [exact Ht|]. split; [exact Hp|].
    split; [rewrite Hf; reflexivity|]. split; [rewrite Hr; reflexivity | exact He].
Qed.

(** X14. When [random.random()] draws numbers of [0, 1], the check
    [response_time < 3.0] of [run_performance_test] comes out true. *)
Theorem performance_check_passes (s : state tester) :
  (forall n, 0 <= e_random (world s) n <= 1)%Q ->
  exists s', run_performance_test s = (Ok true, s').
Proof.
  intros Hrand. unfold run_performance_test, int_time.
  unfold bind at 1, io at 1, time_time at 1. cbn [fst snd world self].
  unfold bind at 1, bind at 1, io at 1, time_time at 1, ret at 1. cbn [fst snd world self].
  unfold bind at 1, bind at 1, io at 1, time_time at 1, ret at 1. cbn [fst snd world self].
  unfold bind at 1.
  match goal with
  | |- context [run_test_case ?id ?d ?data "success" ?s1] =>
      destruct (run_test_case_accepts id d data s1) as (r & s' & -> & _ & _ & _ & Hrt)
  end.
  { match goal with
    | |- _is_valid_data {[ "username" := PyStr (_ ++ py_str_int ?t1);
                           "email" := PyStr (_ ++ py_str_int ?t2 ++ _); _ := _ ]} = _ =>
        accepted "perfuser_" "perf_" "PerfPass123!" t1 t2
    end. }
  exists s'. unfold ret. rewrite Hrt. f_equal. f_equal.
  unfold random_uniform. cbn [fst world advance e_random e_tick].
  apply negb_true_iff. apply not_true_is_false. intros H.
  apply Qle_bool_iff in H.
  match type of H with
  | context [e_random (world s) ?n] => specialize (Hrand n)
  end.
  lra.
Qed.

(** The world that draws 0, as a witness of [performance_check_passes]. *)
Lemma performance_check_passes_world0 :
  exists s', run_performance_test Examples.simulated0 = (Ok true, s').
Proof.
  apply (performance_check_passes Examples.simulated0).
  intros n. vm_compute. split; discriminate.
Defined.

End SimulatedSuite.

(** ** The suites of the Selenium tests *)

Section SeleniumCatalog.

Import Selenium.
Local Open Scope list_scope.

Lemma execute_test_case_body_records_gen (P : result -> Prop) (id d : string)
    (data : list (string * string)) (expected : string) (start_time : Q) :
  (forall p msg, records_one P (record_test_result id d p msg start_time)) ->
  records_one P (execute_test_case_body id d data expected start_time).
Proof.
  intros Hrec. unfold execute_test_case_body.
  apply records_one_bind; [apply keeps_self_navigate|]. intros ok1.
  destruct ok1; cbn [negb]; [|apply Hrec].
  apply records_one_bind; [apply keeps_self_fill_fields|]. intros [field|]; [apply Hrec|].
  apply records_one_bind; [apply keeps_self_submit_form|]. intros ok2.
  destruct ok2; cbn [negb]; [|apply Hrec].
  apply records_one_bind; [apply keeps_self_wait_for_response|]. intros ok3.
  destruct ok3; cbn [negb]; [|apply Hrec].
  apply records_one_bind; [apply keeps_self_get_success_message|]. intros success_msg.
  apply records_one_bind; [apply keeps_self_get_error_message|]. intros error_msg.
  apply Hrec.
Qed.

Lemma execute_test_case_records (id d : string) (data : list (string * string))
    (expected : string) :
  records_all [id] (fun r new => new = [r]) (execute_test_case id d data expected).
Proof.
  intros s. unfold execute_test_case, bind, io, time_time, try_except_Exception. simpl.
  assert (Hrec : forall p msg st,
            records_one (fun r => test_id r = id) (record_test_result id d p msg st)).
  { intros p msg st s0. rewrite record_test_result_value. by split. }
  pose proof (execute_test_case_body_records_gen (fun r => test_id r = id) id d data expected
                (e_time (world s) (e_tick (world s))) (fun p msg => Hrec p msg _)
                (mk_state (self s) (advance (world s)))) as Hbody.
  destruct (execute_test_case_body id d data expected _ _) as [[r|ex] s1].
  - destruct Hbody as [Hlog Hid]. exists r, s1, [r]. split; [reflexivity|].
    split; [exact Hlog|]. split; [simpl; by rewrite Hid | reflexivity].
  - simpl in Hbody. rewrite record_test_result_value. eexists _, _, [_].
    split; [reflexivity|]. split; [simpl; by rewrite Hbody|]. split; reflexivity.
Qed.

Lemma records_all_seq {A B} (ids1 ids2 : list string)
    (R1 : A -> list result -> Prop) (R : B -> list result -> Prop)
    (c : M tests A) (k : A -> M tests B) :
  records_all ids1 R1 c ->
  (forall a n1, R1 a n1 -> records_all ids2 (fun b n2 => R b (n1 ++ n2)) (k a)) ->
  records_all (ids1 ++ ids2) R (bind c k).
Proof.
  intros Hc Hk s. unfold bind.
  destruct (Hc s) as (a & s1 & n1 & -> & Hl1 & Hi1 & HR1).
  destruct (Hk a n1 HR1 s1) as (b & s2 & n2 & -> & Hl2 & Hi2 & HR).
  exists b, s2, (n1 ++ n2). split; [reflexivity|].
  split; [rewrite Hl2, Hl1; simpl; by rewrite app_assoc|].
  split; [by rewrite map_app, Hi1, Hi2 | exact HR].
Qed.

Lemma records_all_ret {A} (R : A -> list result -> Prop) (a : A) :
  R a [] -> records_all [] R (ret a).
Proof.
  intros HR s. exists a, s, []. rewrite app_nil_r.
  split; [reflexivity|]. split; [by destruct s as [[] ?]|]. by split.
Qed.

Lemma records_all_int_time {B} (ids : list string) (R : B -> list result -> Prop)
    (k : Z -> M tests B) :
  (forall t, records_all ids R (k t)) -> records_all ids R (bind int_time k).
Proof.
  intros Hk s. unfold bind, int_time, bind, io, time_time, ret. cbn [fst snd world self].
  destruct (Hk (py_int (e_time (world s) (e_tick (world s))))
               (mk_state (self s) (advance (world s))))
    as (b & s2 & n2 & Hrun & H).
  exists b, s2, n2. split; [exact Hrun | exact H].
Qed.

Lemma records_all_weaken {A} (ids ids' : list string) (R R' : A -> list result -> Prop)
    (c : M tests A) :
  ids = ids' -> (forall a n, R a n -> R' a n) ->
  records_all ids R c -> records_all ids' R' c.
Proof.
  intros <- HR Hc s. destruct (Hc s) as (a & s' & new & Hrun & Hl & Hi & Ha).
  exists a, s', new. repeat split; auto.
Qed.

Lemma for_enumerate_records {A} (body : nat -> A -> M tests result)
    (idf : nat -> A -> string) (xs : list A) (i : nat) :
  (forall i x, records_all [idf i x] (fun r new => new = [r]) (body i x)) ->
  records_all (ids_from idf i xs) (fun rs new => new = rs) (for_enumerate body i xs).
Proof.
  intros Hbody. revert i. induction xs as [|x xs IH]; intros i; cbn [for_enumerate ids_from].
  - by apply records_all_ret.
  - apply (records_all_seq [idf i x] _ (fun r new => new = [r])); [apply Hbody|].
    intros r n1 ->.
    apply (records_all_weaken (ids_from idf (S i) xs ++ []) _
             (fun b n2 => [r] ++ n2 = b)); [apply app_nil_r | auto |].
    apply (records_all_seq (ids_from idf (S i) xs) [] (fun rs new => new = rs));
      [apply IH|].
    intros rs n2 ->. apply records_all_ret. by rewrite app_nil_r.
Qed.

Ltac one_case id :=
  apply (records_all_seq [id] _ (fun r new => new = [r]));
    [apply execute_test_case_records | intros ? ? ->].

Ltac enumerated ids idf :=
  apply (records_all_seq ids _ (fun rs new => new = rs));
    [ eapply records_all_weaken;
      [ | | apply (for_enumerate_records _ idf);
            intros ? ?; apply execute_test_case_records ];
      [ vm_compute; reflexivity | intros ? ? H; exact H ]
    | intros ? ? -> ].

Ltac finish_list :=
  apply records_all_ret; cbn [app]; rewrite ?app_nil_r, <- ?app_assoc; reflexivity.

Lemma selenium_run_positive_tests_records :
  records_all ["REG_001"; "REG_002"; "REG_003"] (fun rs new => new = rs)
    run_positive_tests.
Proof.
  unfold run_positive_tests, test_successful_registration_with_valid_data,
    test_registration_with_minimum_required_fields,
    test_registration_with_all_optional_fields.
  apply (records_all_seq ["REG_001"] _ (fun r new => new = [r])).
  { apply records_all_int_time. intros t1. apply records_all_int_time. intros t2.
    apply execute_test_case_records. }
  intros r1 ? ->.
  apply (records_all_seq ["REG_002"] _ (fun r new => new = [r])).
  { apply records_all_int_time. intros t1. apply records_all_int_time. intros t2.
    apply execute_test_case_records. }
  intros r2 ? ->.
  apply (records_all_seq ["REG_003"] _ (fun r new => new = [r])).
  { apply records_all_int_time. intros t1. apply records_all_int_time. intros t2.
    apply execute_test_case_records. }
  intros r3 ? ->.
  finish_list.
Qed.

Lemma selenium_run_negative_tests_records :
  records_all
    [ "REG_004"; "REG_005"; "REG_006";
      "REG_007_1"; "REG_007_2"; "REG_007_3"; "REG_007_4";
      "REG_010_1"; "REG_010_2"; "REG_010_3"; "REG_010_4"; "REG_011" ]
    (fun rs new => new = rs) run_negative_tests.
Proof.
  unfold run_negative_tests, test_registration_with_empty_username,
    test_registration_with_empty_email, test_registration_with_empty_password,
    test_registration_with_invalid_email_format, test_registration_with_weak_password,
    test_registration_with_mismatched_passwords.
  one_case "REG_004". one_case "REG_005". one_case "REG_006".
  enumerated ["REG_007_1"; "REG_007_2"; "REG_007_3"; "REG_007_4"]
    (fun (i : nat) (_ : string) => ("REG_007_" ++ py_str_int (Z.of_nat i + 1))%string).
  enumerated ["REG_010_1"; "REG_010_2"; "REG_010_3"; "REG_010_4"]
    (fun (i : nat) (_ : string) => ("REG_010_" ++ py_str_int (Z.of_nat i + 1))%string).
  one_case "REG_011".
  finish_list.
Qed.

Lemma selenium_run_security_tests_records :
  records_all
    [ "REG_015_1"; "REG_015_2"; "REG_015_3"; "REG_016_1"; "REG_016_2"; "REG_016_3" ]
    (fun rs new => new = rs) run_security_tests.
Proof.
  unfold run_security_tests, test_sql_injection_in_username, test_xss_in_form_fields.
  enumerated ["REG_015_1"; "REG_015_2"; "REG_015_3"]
    (fun (i : nat) (_ : string) => ("REG_015_" ++ py_str_int (Z.of_nat i + 1))%string).
  enumerated ["REG_016_1"; "REG_016_2"; "REG_016_3"]
    (fun (i : nat) (_ : string) => ("REG_016_" ++ py_str_int (Z.of_nat i + 1))%string).
  finish_list.
Qed.

Lemma selenium_validation_messages_records :
  records_all [ "REG_019_username"; "REG_019_email"; "REG_019_password" ]
    (fun rs new => new = rs) test_form_field_validation_messages.
Proof.
  unfold test_form_field_validation_messages.
  eapply records_all_weaken;
    [ | | apply (for_enumerate_records _
                   (fun (_ : nat) (field : string) => ("REG_019_" ++ field)%string));
          intros ? ?; apply execute_test_case_records ];
    [ vm_compute; reflexivity | intros ? ? H; exact H ].
Qed.

(** X15. The suites of the Selenium tests, whatever the browser does:
    [run_positive_tests], [run_negative_tests], [run_security_tests] and
    [test_form_field_validation_messages] never raise, return the results
    they have added to the log in order, and name them as below, the
    variants of a case by its identifier and their index from 1 (or the
    name of the field). *)
Theorem selenium_suites_record (s : state tests) :
  (exists rs s',
      run_positive_tests s = (Ok rs, s') /\
      test_results (self s') = test_results (self s) ++ rs /\
      map test_id rs = ["REG_001"; "REG_002"; "REG_003"]) /\
  (exists rs s',
      run_negative_tests s = (Ok rs, s') /\
      test_results (self s') = test_results (self s) ++ rs /\
      map test_id rs =
        [ "REG_004"; "REG_005"; "REG_006";
          "REG_007_1"; "REG_007_2"; "REG_007_3"; "REG_007_4";
          "REG_010_1"; "REG_010_2"; "REG_010_3"; "REG_010_4"; "REG_011" ]) /\
  (exists rs s',
      run_security_tests s = (Ok rs, s') /\
      test_results (self s') = test_results (self s) ++ rs /\
      map test_id rs =
        [ "REG_015_1"; "REG_015_2"; "REG_015_3";
          "REG_016_1"; "REG_016_2"; "REG_016_3" ]) /\
  (exists rs s',
      test_form_field_validation_messages s = (Ok rs, s') /\
      test_results (self s') = test_results (self s) ++ rs /\
      map test_id rs = [ "REG_019_username"; "REG_019_email"; "REG_019_password" ]).
Proof.
  split; [|split; [|split]]; cycle 3.
  - destruct (selenium_validation_messages_records s)
      as (rs & s' & new & Hrun & Hl & Hi & ->).
    exists rs, s'. rewrite Hl. by repeat split.
  - destruct (selenium_run_positive_tests_records s) as (rs & s' & new & Hrun & Hl & Hi & ->).
    exists rs, s'. rewrite Hl. by repeat split.
  - destruct (selenium_run_negative_tests_records s) as (rs & s' & new & Hrun & Hl & Hi & ->).
    exists rs, s'. rewrite Hl. by repeat split.
  - destruct (selenium_run_security_tests_records s) as (rs & s' & new & Hrun & Hl & Hi & ->).
    exists rs, s'. rewrite Hl. by repeat split.
Qed.

(** X16. When the page of the form cannot be loaded, be it that
    [driver.get] raises or that the wait for the form does, the case is
    recorded as failed and the form is not touched (no further command is
    sent to the browser): with a [TimeoutException] the message is
    ["Failed to load page"], with any other exception it is ["Exception: "]
    followed by the text of the exception. *)
Theorem navigation_failure (id d : string) (data : list (string * string))
    (expected : string) (s : state tests) (e : exn) :
  let reason :=
    if bool_decide (exn_cls e = TimeoutException) then "Failed to load page"
    else ("Exception: " ++ exn_msg e)%string in
  (e_driver (world s) (S (e_tick (world s))) = DrvRaise e ->
   exists r,
     execute_test_case id d data expected s =
       (Ok r,
        mk_state (mk_tests (base_url (self s)) (test_results (self s) ++ [r]))
          (advance (advance (advance (advance (world s)))))) /\
     passed r = false /\ result_message r = reason) /\
  (forall text,
     e_driver (world s) (S (e_tick (world s))) = DrvOk text ->
     e_driver (world s) (S (S (e_tick (world s)))) = DrvRaise e ->
     exists r,
       execute_test_case id d data expected s =
         (Ok r,
          mk_state (mk_tests (base_url (self s)) (test_results (self s) ++ [r]))
            (advance (advance (advance (advance (advance (world s))))))) /\
       passed r = false /\ result_message r = reason).
Proof.
  intros reason. subst reason. destruct e as [cls msg]. cbn [exn_cls exn_msg].
  split.
  - intros He.
    unfold execute_test_case, execute_test_case_body, navigate_to_registration, browser.
    unfold bind at 1, io at 1, time_time at 1. cbn [fst snd world self].
    unfold try_except_Exception, bind at 1, try_except, bind at 1, bind at 1,
      io at 1, driver_command at 1.
    cbn [fst snd world self advance e_driver e_tick]. rewrite He.
    unfold raise, ret. cbn [exn_cls exn_msg].
    destruct (decide (cls = TimeoutException)) as [->|Hne].
    + rewrite bool_decide_eq_true_2 by (by apply list_elem_of_singleton).
      rewrite bool_decide_eq_true_2 by reflexivity.
      cbn [negb]. rewrite record_test_result_value. eexists. split; [reflexivity|].
      split; reflexivity.
    + rewrite bool_decide_eq_false_2
        by (intros Hin; apply list_elem_of_singleton in Hin; congruence).
      rewrite bool_decide_eq_false_2 by exact Hne.
      rewrite record_test_result_value. eexists. split; [reflexivity|].
      split; reflexivity.
  - intros text Hok He.
    unfold execute_test_case, execute_test_case_body, navigate_to_registration, browser.
    unfold bind at 1, io at 1, time_time at 1. cbn [fst snd world self].
    unfold try_except_Exception, bind at 1, try_except, bind at 1, bind at 1,
      io at 1, driver_command at 1.
    cbn [fst snd world self advance e_driver e_tick]. rewrite Hok.
    unfold ret at 1, bind at 1, bind at 1, io at 1, driver_command at 1.
    cbn [fst snd world self advance e_driver e_tick]. rewrite He.
    unfold raise, ret. cbn [exn_cls exn_msg].
    destruct (decide (cls = TimeoutException)) as [->|Hne].
    + rewrite bool_decide_eq_true_2 by (by apply list_elem_of_singleton).
      rewrite bool_decide_eq_true_2 by reflexivity.
      cbn [negb]. rewrite record_test_result_value. eexists. split; [reflexivity|].
      split; reflexivity.
    + rewrite bool_decide_eq_false_2
        by (intros Hin; apply list_elem_of_singleton in Hin; congruence).
      rewrite bool_decide_eq_false_2 by exact Hne.
      rewrite record_test_result_value. eexists. split; [reflexivity|].
      split; reflexivity.
Qed.

(** A page load that times out and a form that never shows, as witnesses
    of [navigation_failure]. *)
Lemma navigation_failure_timeouts :
  (exists r s',
      execute_test_case "REG_001" "Successful registration with valid data"
        valid_test_data "success" Examples.selenium_slow = (Ok r, s') /\
      passed r = false /\
      result_message r = "Failed to load page") /\
  (exists r s',
      execute_test_case "REG_001" "Successful registration with valid data"
        valid_test_data "success" Examples.selenium_no_form = (Ok r, s') /\
      passed r = false /\
      result_message r = "Failed to load page").
Proof.
  split.
  - destruct (proj1 (navigation_failure "REG_001"
                "Successful registration with valid data"
                valid_test_data "success" Examples.selenium_slow
                (mk_exn TimeoutException "Message: ")) eq_refl) as (r & Hrun & Hp & Hm).
    eexists r, _. split; [exact Hrun|]. split; [exact Hp | exact Hm].
  - destruct (proj2 (navigation_failure "REG_001"
                "Successful registration with valid data"
                valid_test_data "success" Examples.selenium_no_form
                (mk_exn TimeoutException "Message: ")) "" eq_refl eq_refl)
      as (r & Hrun & Hp & Hm).
    eexists r, _. split; [exact Hrun|]. split; [exact Hp | exact Hm].
Defined.

Lemma fill_fields_known (items : list (string * string)) :
  fill_fields items
  = fill_fields (List.filter (fun kv => od_mem (fst kv) selectors) items).
Proof.
  induction items as [|[f v] items IH]; [reflexivity|].
  cbn [fill_fields List.filter fst].
  destruct (od_mem f selectors) eqn:E; [|exact IH].
  cbn [fill_fields]. rewrite E, <- IH. reflexivity.
Qed.

(** X17. [execute_test_case] ignores the fields of the payload that have
    no selector: it behaves on a payload as on the payload without them. *)
Theorem unknown_fields_ignored (id d : string) (data : list (string * string))
    (expected : string) :
  execute_test_case id d data expected
  = execute_test_case id d
      (List.filter (fun kv => od_mem (fst kv) selectors) data) expected.
Proof.
  unfold execute_test_case, execute_test_case_body.
  by rewrite <- fill_fields_known.
Qed.

End SeleniumCatalog.
